(** * Media-stream extraction pipeline: the two handlers and the subtitle cleaner

    A shallow embedding of the stream-extraction code of the repository:
    - the [extract-stream] IPC handler of the desktop player (one stream per
      call, output in the temp directory, subtitle clean-up pass);
    - the [/upload] HTTP handler of the server (every audio and subtitle
      stream of an uploaded file, one manifest).

    JavaScript strings are sequences of UTF-16 code units; they are modelled
    as [list N].  The external tools ([exec], [ffprobe], the fluent-ffmpeg
    runner) and the [path] library are parameters of the handlers: the code
    only calls them, so the development quantifies over what they do. *)

From Stdlib Require Import NArith List String Ascii Bool Lia.
From Stdlib Require Import DecimalN.
From stdpp Require Import base option list gmap.

Local Open Scope N_scope.

(** ** JavaScript strings *)

Module Js.

(** A string value: its UTF-16 code units. *)
Abbreviation jsstring := (list N).

(** A string literal of the source (all of them are ASCII). *)
Definition lit (s : string) : jsstring :=
  List.map N_of_ascii (list_ascii_of_string s).

(** [a === b] on two strings. *)
Definition streq (a b : jsstring) : bool := bool_decide (a = b).

(** [s.startsWith(p)]. *)
Fixpoint startsWith (s p : jsstring) : bool :=
  match p, s with
  | [], _ => true
  | _ :: _, [] => false
  | c :: p', d :: s' => (c =? d) && startsWith s' p'
  end.

(** [s.includes(sub)]: [sub] occurs at some position of [s]. *)
Fixpoint includes (s sub : jsstring) : bool :=
  startsWith s sub ||
  match s with
  | [] => false
  | _ :: s' => includes s' sub
  end.

(** The code units [String.prototype.trim] strips: WhiteSpace (TAB, VT, FF,
    ZWNBSP and the space separators) and LineTerminator (LF, CR, LS, PS). *)
Definition isWhiteSpace (c : N) : bool :=
  existsb (N.eqb c)
    [9; 10; 11; 12; 13; 32; 160; 5760; 8232; 8233; 8239; 8287; 12288; 65279]
  || ((8192 <=? c) && (c <=? 8202)).

Fixpoint trimStart (s : jsstring) : jsstring :=
  match s with
  | [] => []
  | c :: s' => if isWhiteSpace c then trimStart s' else s
  end.

Definition trimEnd (s : jsstring) : jsstring := rev (trimStart (rev s)).

(** [s.trim()]. *)
Definition trim (s : jsstring) : jsstring := trimEnd (trimStart s).

(** The class [\d] of a regular expression without the unicode flag. *)
Definition isDigit (c : N) : bool := (48 <=? c) && (c <=? 57).

(** [/^\d+$/.test(s)]: no [m] flag, so the anchors are the two ends of [s]. *)
Definition test_digits (s : jsstring) : bool :=
  match s with
  | [] => false
  | _ :: _ => forallb isDigit s
  end.

(** The double quote, U+0022. *)
Definition dquote : N := 34.

(** The global replace of the double quote by the empty string. *)
Definition remove_quotes (s : jsstring) : jsstring :=
  List.filter (fun c => negb (c =? dquote)) s.

(** The line feed, the separator of [split('\n')] and [join('\n')]. *)
Definition LF : N := 10.

(** [s.split(sep)] for a separator of one code unit.  The result is never
    empty: [''.split('\n')] is [['']]. *)
Fixpoint split (sep : N) (s : jsstring) : list jsstring :=
  match s with
  | [] => [[]]
  | c :: s' =>
      if c =? sep then [] :: split sep s'
      else match split sep s' with
           | l :: ls => (c :: l) :: ls
           | [] => [[c]]
           end
  end.

(** [ls.join(sep)] on an array of strings. *)
Fixpoint join (sep : N) (ls : list jsstring) : jsstring :=
  match ls with
  | [] => []
  | l :: ls' =>
      match ls' with
      | [] => l
      | _ :: _ => l ++ sep :: join sep ls'
      end
  end.

(** The decimal digits of a [Decimal.uint], most significant first. *)
Fixpoint uint_units (d : Decimal.uint) : jsstring :=
  match d with
  | Decimal.Nil => []
  | Decimal.D0 d => 48 :: uint_units d
  | Decimal.D1 d => 49 :: uint_units d
  | Decimal.D2 d => 50 :: uint_units d
  | Decimal.D3 d => 51 :: uint_units d
  | Decimal.D4 d => 52 :: uint_units d
  | Decimal.D5 d => 53 :: uint_units d
  | Decimal.D6 d => 54 :: uint_units d
  | Decimal.D7 d => 55 :: uint_units d
  | Decimal.D8 d => 56 :: uint_units d
  | Decimal.D9 d => 57 :: uint_units d
  end.

(** [`${n}`] for a non-negative integer [n]: its decimal digits.  (Number
    to string conversion is plain decimal below 1e21; the stream indices
    and millisecond clock readings of the handlers are far below.) *)
Definition num_to_string (n : N) : jsstring := uint_units (N.to_uint n).

(** A value that is a string or [undefined], as [stream.tags?.title] is. *)
Inductive value :=
| undefined
| str (s : jsstring).

(** ToBoolean on such a value: only [undefined] and [''] are falsy. *)
Definition truthy (v : value) : bool :=
  match v with
  | undefined => false
  | str [] => false
  | str (_ :: _) => true
  end.

(** [a || b]. *)
Definition logical_or (a b : value) : value := if truthy a then a else b.

End Js.

Import Js.

(** ** The subtitle clean-up of the [extract-stream] handler *)

Module Subtitle.

(** The callback of [.map(line => ...)]: a line that holds ['-->'], or
    whose trimmed text is digits only, ['WEBVTT'] or empty, is returned as
    it is; any other line loses its double quotes. *)
Definition clean_line (line : jsstring) : jsstring :=
  if includes line (lit "-->")
     || test_digits (trim line)
     || streq (trim line) (lit "WEBVTT")
     || streq (trim line) (lit "")
  then line
  else remove_quotes line.

(** [vttContent.split('\n').map(...).join('\n')]. *)
Definition cleanedContent (vttContent : jsstring) : jsstring :=
  join LF (List.map clean_line (split LF vttContent)).

(** The four kinds of structural line, in the words of the specification:
    a cue-timing line (contains the separator token), a cue-index line
    (digits only), the header literal, an empty line. *)
Definition spec_structural (line : jsstring) : bool :=
  includes line (lit "-->")
  || test_digits line
  || streq line (lit "WEBVTT")
  || streq line (lit "").

End Subtitle.

Import Subtitle.

(** ** The file system the handlers read and write *)

Module Fs.

(** The files (path to contents, as decoded text) and the paths that refuse a
    write; directories are not tracked. *)
Record state := mkState {
  files : gmap (list N) (list N);
  readonly : gset (list N)
}.

(** [fs.readFileSync(p, 'utf8')]: [None] when it throws (no such file). *)
Definition readFileSync (p : jsstring) (s : state) : option jsstring :=
  files s !! p.

(** [fs.writeFileSync(p, data, 'utf8')]: [None] when it throws. *)
Definition writeFileSync (p data : jsstring) (s : state) : option state :=
  if decide (p ∈ readonly s) then None
  else Some (mkState (<[p := data]> (files s)) (readonly s)).

(** [fs.existsSync(p)]. *)
Definition existsSync (p : jsstring) (s : state) : bool :=
  bool_decide (is_Some (files s !! p)).

(** [fs.unlinkSync(p)]. *)
Definition unlinkSync (p : jsstring) (s : state) : state :=
  mkState (delete p (files s)) (readonly s).

End Fs.

(** ** Stream descriptors, as the probing tool reports them *)

Module Probe.

(** [stream.tags]: each tag is a string or missing. *)
Record Tags := mkTags {
  title : value;
  language : value
}.

(** One entry of [streams]; [tags] itself may be missing. *)
Record Stream := mkStream {
  index : N;
  codec_type : jsstring;
  codec_name : jsstring;
  tags : option Tags
}.

(** [stream.tags?.title] and [stream.tags?.language]. *)
Definition tags_title (s : Stream) : value :=
  match tags s with
  | None => undefined
  | Some t => title t
  end.

Definition tags_language (s : Stream) : value :=
  match tags s with
  | None => undefined
  | Some t => language t
  end.

End Probe.

Import Probe.

(** ** The [extract-stream] handler (one stream per call) *)

Module Interactive.

(** What the callback of [exec] receives: an error with the text of the
    error stream, or none. *)
Inductive ExecOutcome :=
| ExecError (stderr : jsstring)
| ExecOk.

(** The value a promise is rejected with: a bare string, or [new Error(m)]. *)
Inductive Reason :=
| ReasonString (s : jsstring)
| ReasonError (message : jsstring).

Inductive Settled :=
| Resolve (outputPath : jsstring)
| Reject (r : Reason).

(** The file system and the commands handed to [exec] so far. *)
Record World := mkWorld {
  fs : Fs.state;
  spawned : list jsstring
}.

Section Handler.

(** [os.tmpdir()], [path.join] and the subprocess runner [exec]: the
    subprocess may change the file system in any way. *)
Variable tmpdir : jsstring.
Variable path_join : list jsstring -> jsstring.
Variable exec : jsstring -> Fs.state -> ExecOutcome * Fs.state.

(** [`mx-player-${Date.now()}`], from the clock reading [now] of the call. *)
Definition uniqueId (now : N) : jsstring :=
  lit "mx-player-" ++ num_to_string now.

(** The file names given to [path.join(tempDir, ...)]. *)
Definition audio_name (now idx : N) : jsstring :=
  uniqueId now ++ lit "_audio_" ++ num_to_string idx ++ lit ".aac".

Definition sub_name (now idx : N) : jsstring :=
  uniqueId now ++ lit "_sub_" ++ num_to_string idx ++ lit ".vtt".

(** The file names the handler can produce. *)
Inductive OutputName : jsstring -> Prop :=
| AudioName (now idx : N) : OutputName (audio_name now idx)
| SubName (now idx : N) : OutputName (sub_name now idx).

(** The [if / else if / else] that sets [command] and [outputPath]; [None]
    is the last branch, which returns before either is set. *)
Definition build (now : N) (filePath : jsstring) (stream : Stream)
  : option (jsstring * jsstring) :=
  if streq (codec_type stream) (lit "audio") then
    let outputPath := path_join [tmpdir; audio_name now (index stream)] in
    if streq (codec_name stream) (lit "aac") then
      Some (lit "ffmpeg -y -i " ++ [dquote] ++ filePath ++ [dquote]
            ++ lit " -map 0:" ++ num_to_string (index stream)
            ++ lit " -c:a copy " ++ [dquote] ++ outputPath ++ [dquote],
            outputPath)
    else
      Some (lit "ffmpeg -y -i " ++ [dquote] ++ filePath ++ [dquote]
            ++ lit " -map 0:" ++ num_to_string (index stream)
            ++ lit " -c:a aac " ++ [dquote] ++ outputPath ++ [dquote],
            outputPath)
  else if streq (codec_type stream) (lit "subtitle") then
    let outputPath := path_join [tmpdir; sub_name now (index stream)] in
    Some (lit "ffmpeg -y -i " ++ [dquote] ++ filePath ++ [dquote]
          ++ lit " -map 0:" ++ num_to_string (index stream)
          ++ lit " -c:s webvtt " ++ [dquote] ++ outputPath ++ [dquote],
          outputPath)
  else None.

(** The [try { read; clean; write } catch { log }] around the clean-up: a
    failed read or write leaves the file system as it was. *)
Definition clean_subtitle_file (outputPath : jsstring) (s : Fs.state)
  : Fs.state :=
  match Fs.readFileSync outputPath s with
  | None => s
  | Some vttContent =>
      match Fs.writeFileSync outputPath (cleanedContent vttContent) s with
      | None => s
      | Some s' => s'
      end
  end.

(** The handler: the promise it returns, settled, and the world after. *)
Definition extract_stream (now : N) (filePath : jsstring) (stream : Stream)
  (w : World) : Settled * World :=
  match build now filePath stream with
  | None =>
      (Reject (ReasonString (lit "Unsupported stream type for extraction.")), w)
  | Some (command, outputPath) =>
      let (outcome, fs1) := exec command (fs w) in
      let log := spawned w ++ [command] in
      match outcome with
      | ExecError stderr =>
          (Reject (ReasonError (lit "FFmpeg failed to extract stream: " ++ stderr)),
           mkWorld fs1 log)
      | ExecOk =>
          let fs2 :=
            if streq (codec_type stream) (lit "subtitle")
            then clean_subtitle_file outputPath fs1
            else fs1 in
          (Resolve outputPath, mkWorld fs2 log)
      end
  end.

End Handler.

(** The text of an audio extraction command, by its codec selector. *)
Definition audio_command_text (filePath : jsstring) (idx : N)
  (codec outputPath : jsstring) : jsstring :=
  lit "ffmpeg -y -i " ++ [dquote] ++ filePath ++ [dquote]
  ++ lit " -map 0:" ++ num_to_string idx
  ++ lit " -c:a " ++ codec ++ lit " " ++ [dquote] ++ outputPath ++ [dquote].

End Interactive.

(** ** The [/upload] handler (every stream of one file) *)

Module Batch.

(** A fluent-ffmpeg command object, by what the builder calls set on it. *)
Record FfmpegCommand := mkCommand {
  cmd_input : jsstring;
  cmd_output : option jsstring;
  cmd_noAudio : bool;
  cmd_noVideo : bool;
  cmd_videoCodec : option jsstring;
  cmd_audioCodec : option jsstring;
  cmd_outputOptions : list jsstring
}.

(** The builder calls the handler uses. *)
Definition ffmpeg (inputFile : jsstring) : FfmpegCommand :=
  mkCommand inputFile None false false None None [].

Definition output (p : jsstring) (c : FfmpegCommand) : FfmpegCommand :=
  mkCommand (cmd_input c) (Some p) (cmd_noAudio c) (cmd_noVideo c)
            (cmd_videoCodec c) (cmd_audioCodec c) (cmd_outputOptions c).

Definition noAudio (c : FfmpegCommand) : FfmpegCommand :=
  mkCommand (cmd_input c) (cmd_output c) true (cmd_noVideo c)
            (cmd_videoCodec c) (cmd_audioCodec c) (cmd_outputOptions c).

Definition noVideo (c : FfmpegCommand) : FfmpegCommand :=
  mkCommand (cmd_input c) (cmd_output c) (cmd_noAudio c) true
            (cmd_videoCodec c) (cmd_audioCodec c) (cmd_outputOptions c).

Definition videoCodec (codec : jsstring) (c : FfmpegCommand) : FfmpegCommand :=
  mkCommand (cmd_input c) (cmd_output c) (cmd_noAudio c) (cmd_noVideo c)
            (Some codec) (cmd_audioCodec c) (cmd_outputOptions c).

Definition audioCodec (codec : jsstring) (c : FfmpegCommand) : FfmpegCommand :=
  mkCommand (cmd_input c) (cmd_output c) (cmd_noAudio c) (cmd_noVideo c)
            (cmd_videoCodec c) (Some codec) (cmd_outputOptions c).

Definition addOutputOption (o : jsstring) (c : FfmpegCommand) : FfmpegCommand :=
  mkCommand (cmd_input c) (cmd_output c) (cmd_noAudio c) (cmd_noVideo c)
            (cmd_videoCodec c) (cmd_audioCodec c) (cmd_outputOptions c ++ [o]).

(** Method chaining: [c |> m] is [c.m(...)]. *)
Local Notation "c |> m" := (m c) (at level 45, left associativity, only parsing).

(** How a run ends: the ['end'] event, or ['error'] with the error's message. *)
Inductive RunOutcome :=
| RunEnd
| RunError (message : jsstring).

(** What [ffprobe] calls back with. [streams] may be missing. *)
Record Metadata := mkMetadata {
  streams : option (list Stream)
}.

Inductive ProbeResult :=
| ProbeError (message : jsstring)
| ProbeOk (metadata : Metadata).

(** The file system and the ffmpeg runs so far, each with how it ended. *)
Record World := mkWorld {
  fs : Fs.state;
  procs : list (FfmpegCommand * RunOutcome)
}.

(** [req.file], as the upload middleware fills it. *)
Record File := mkFile {
  file_path : jsstring;
  file_filename : jsstring;
  file_originalname : jsstring
}.

(** One entry of [audioTracks] or [subtitleTracks]. *)
Record Track := mkTrack {
  url : jsstring;
  label : value
}.

(** The body of the success response. *)
Record Manifest := mkManifest {
  videoUrl : jsstring;
  audioTracks : list Track;
  subtitleTracks : list Track;
  filename : jsstring
}.

(** The three responses of the handler: status 400, the manifest, and
    status 500 with [error] and [details]. *)
Inductive Response :=
| BadRequest (error : jsstring)
| Success (m : Manifest)
| Failure (error details : jsstring).

(** A step of the [try] block: it completes with a value or throws an error
    (kept by its message), and changes the world. *)
Inductive Result (A : Type) :=
| Done (a : A)
| Thrown (message : jsstring).

Arguments Done {A} a.
Arguments Thrown {A} message.

Definition Task (A : Type) : Type := World -> Result A * World.

Definition ret {A} (a : A) : Task A := fun w => (Done a, w).

Definition throw {A} (message : jsstring) : Task A := fun w => (Thrown message, w).

Definition bind {A B} (t : Task A) (k : A -> Task B) : Task B :=
  fun w =>
    match t w with
    | (Done a, w1) => k a w1
    | (Thrown m, w1) => (Thrown m, w1)
    end.

Local Notation "x <- t ;; k" := (bind t (fun x => k))
  (at level 100, t at next level, right associativity, only parsing).

(** [await Promise.all(ts)]: every task of [ts] is started and runs to its
    end whether or not another one fails; the result is the list of values,
    or the error of a failed task.  The effects are applied in list order
    and, of several failures, the first in list order is reported (in the
    source the earliest in time is). *)
Fixpoint promise_all {A} (ts : list (Task A)) : Task (list A) :=
  fun w =>
    match ts with
    | [] => (Done [], w)
    | t :: ts' =>
        let (r, w1) := t w in
        let (rs, w2) := promise_all ts' w1 in
        (match r, rs with
         | Thrown m, _ => Thrown m
         | Done _, Thrown m => Thrown m
         | Done a, Done l => Done (a :: l)
         end, w2)
    end.

(** [cleanupFiles(filePath)]: unlink if the file exists.  The unlink of a
    file that is there is taken to succeed; the [catch] of the source, which
    logs a throwing unlink and goes on with the file in place, is not
    modelled. *)
Definition cleanupFiles (filePath : jsstring) (w : World) : World :=
  if Fs.existsSync filePath (fs w)
  then mkWorld (Fs.unlinkSync filePath (fs w)) (procs w)
  else w.

Section Handler.

(** [__dirname], the [path] functions, the prober and the ffmpeg runner. *)
Variable dirname : jsstring.
Variable path_join : list jsstring -> jsstring.
Variable path_basename : jsstring -> jsstring -> jsstring.
Variable path_extname : jsstring -> jsstring.
Variable ffprobe : jsstring -> Fs.state -> ProbeResult.
Variable run : FfmpegCommand -> Fs.state -> RunOutcome * Fs.state.

(** [getFilePaths(filename)]: [baseName] and [processedDir].  The call of
    [ensureDirectoryExists(processedDir)] in it is not modelled: directories
    are not tracked, and an exception of [mkdirSync], thrown before the
    [try] block, is outside this model, which starts where the handler has
    its paths. *)
Definition getFilePaths (name : jsstring) : jsstring * jsstring :=
  let baseName := path_basename name (path_extname name) in
  (baseName, path_join [dirname; lit "processed"; baseName]).

(** [new Promise(... command.run() ...)], awaited. *)
Definition run_ffmpeg (c : FfmpegCommand) : Task unit :=
  fun w =>
    let (o, fs1) := run c (fs w) in
    (match o with
     | RunEnd => Done tt
     | RunError m => Thrown m
     end, mkWorld fs1 (procs w ++ [(c, o)])).

(** [await new Promise(... ffmpeg.ffprobe(inputFile, ...))]. *)
Definition probe (inputFile : jsstring) : Task Metadata :=
  fun w =>
    match ffprobe inputFile (fs w) with
    | ProbeError m => (Thrown m, w)
    | ProbeOk metadata => (Done metadata, w)
    end.

(** Step 2: the command for the video stream. *)
Definition video_command (inputFile processedDir : jsstring)
  (videoStream : option Stream) : FfmpegCommand :=
  let command :=
    ffmpeg inputFile
    |> output (path_join [processedDir; lit "video.mp4"])
    |> noAudio
    |> videoCodec (lit "copy") in
  match videoStream with
  | Some v =>
      if streq (codec_name v) (lit "h264")
      then command |> addOutputOption (lit "-c:v libx264")
      else command
  | None => command
  end.

(** Step 3: the command and the track of the audio stream at position [i]
    of [audioStreams]. *)
Definition audio_command (inputFile processedDir : jsstring) (i : nat)
  (stream : Stream) : FfmpegCommand :=
  ffmpeg inputFile
  |> output (path_join [processedDir;
                        lit "audio_" ++ num_to_string (N.of_nat i) ++ lit ".aac"])
  |> noVideo
  |> audioCodec (lit "aac")
  |> addOutputOption (lit "-map 0:" ++ num_to_string (index stream)).

Definition audio_label (i : nat) (stream : Stream) : value :=
  logical_or (logical_or (tags_title stream) (tags_language stream))
             (str (lit "Audio " ++ num_to_string (N.of_nat (i + 1)))).

Definition audio_track (inputFile processedDir baseName : jsstring) (i : nat)
  (stream : Stream) : Task Track :=
  _ <- run_ffmpeg (audio_command inputFile processedDir i stream) ;;
  ret (mkTrack (lit "/processed/" ++ baseName ++ lit "/audio_"
                ++ num_to_string (N.of_nat i) ++ lit ".aac")
               (audio_label i stream)).

(** Step 4: the same for the subtitle stream at position [i]. *)
Definition subtitle_command (inputFile processedDir : jsstring) (i : nat)
  (stream : Stream) : FfmpegCommand :=
  ffmpeg inputFile
  |> output (path_join [processedDir;
                        lit "sub_" ++ num_to_string (N.of_nat i) ++ lit ".vtt"])
  |> addOutputOption (lit "-map 0:" ++ num_to_string (index stream)).

Definition subtitle_label (i : nat) (stream : Stream) : value :=
  logical_or (logical_or (tags_title stream) (tags_language stream))
             (str (lit "Subtitle " ++ num_to_string (N.of_nat (i + 1)))).

Definition subtitle_track (inputFile processedDir baseName : jsstring) (i : nat)
  (stream : Stream) : Task Track :=
  _ <- run_ffmpeg (subtitle_command inputFile processedDir i stream) ;;
  ret (mkTrack (lit "/processed/" ++ baseName ++ lit "/sub_"
                ++ num_to_string (N.of_nat i) ++ lit ".vtt")
               (subtitle_label i stream)).

(** The partition of the probed streams. *)
Definition find_video (l : list Stream) : option Stream :=
  List.find (fun s => streq (codec_type s) (lit "video")) l.

Definition audio_streams (l : list Stream) : list Stream :=
  List.filter (fun s => streq (codec_type s) (lit "audio")) l.

Definition subtitle_streams (l : list Stream) : list Stream :=
  List.filter (fun s => streq (codec_type s) (lit "subtitle")) l.

(** The [try] block, up to the value given to [res.json]. *)
Definition process (file : File) (baseName processedDir : jsstring)
  : Task Manifest :=
  let inputFile := file_path file in
  metadata <- probe inputFile ;;
  all <- match streams metadata with
         | None | Some [] => throw (lit "No streams found in the video file")
         | Some l => ret l
         end ;;
  let videoStream := find_video all in
  let audioStreams := audio_streams all in
  let subtitleStreams := subtitle_streams all in
  _ <- run_ffmpeg (video_command inputFile processedDir videoStream) ;;
  audio <- promise_all
             (imap (audio_track inputFile processedDir baseName) audioStreams) ;;
  subs <- promise_all
            (imap (subtitle_track inputFile processedDir baseName)
                  subtitleStreams) ;;
  fun w =>
    (Done (mkManifest (lit "/processed/" ++ baseName ++ lit "/video.mp4")
                      audio subs (file_originalname file)),
     cleanupFiles inputFile w).

(** The handler: [file] is [req.file]; the response sent and the world
    after.  The [catch] block removes the upload and answers 500. *)
Definition upload (file : option File) (w : World) : Response * World :=
  match file with
  | None => (BadRequest (lit "No file uploaded."), w)
  | Some f =>
      let (baseName, processedDir) := getFilePaths (file_filename f) in
      match process f baseName processedDir w with
      | (Done m, w1) => (Success m, w1)
      | (Thrown message, w1) =>
          (Failure (lit "Video processing failed") message,
           cleanupFiles (file_path f) w1)
      end
  end.

End Handler.

(** The log discipline of a task: it only appends to the runs logged, and
    when it completes with a value every run it appended ended well. *)
Definition well_logged {A} (t : Task A) : Prop :=
  forall w r w',
    t w = (r, w') ->
    exists new,
      procs w' = procs w ++ new
      /\ (forall a, r = Done a -> Forall (fun e => snd e = RunEnd) new).




End Batch.

(** ** The label rule, in words *)

Module Labels.

(** The rule as the specification words it: the title if present, else the
    language if present, else the prefix and the 1-indexed position. *)
Definition label_by_presence (prefix : jsstring) (i : nat) (s : Stream)
  : value :=
  match tags_title s with
  | str t => str t
  | undefined =>
      match tags_language s with
      | str l => str l
      | undefined => str (prefix ++ num_to_string (N.of_nat (i + 1)))
      end
  end.

(** The same rule with a tag counted only when it is present and not the
    empty string. *)
Definition label_by_content (prefix : jsstring) (i : nat) (s : Stream)
  : value :=
  match tags_title s with
  | str (c :: t) => str (c :: t)
  | _ =>
      match tags_language s with
      | str (c :: l) => str (c :: l)
      | _ => str (prefix ++ num_to_string (N.of_nat (i + 1)))
      end
  end.

End Labels.

(** ** A concrete environment, to run the handlers on *)

Module Demo.

(** A container with one video, two audio and one subtitle stream. *)
Definition video_stream : Stream :=
  mkStream 0 (lit "video") (lit "h264") None.

Definition aac_stream : Stream :=
  mkStream 1 (lit "audio") (lit "aac")
           (Some (mkTags (str (lit "Commentary")) undefined)).

Definition mp3_stream : Stream :=
  mkStream 2 (lit "audio") (lit "mp3") None.

Definition sub_stream : Stream :=
  mkStream 3 (lit "subtitle") (lit "subrip")
           (Some (mkTags (str (lit "")) (str (lit "eng")))).

Definition all_streams : list Stream :=
  [video_stream; aac_stream; mp3_stream; sub_stream].

(** Subtitle text with a quoted cue. *)
Definition quoted_vtt : jsstring :=
  lit "WEBVTT" ++ [LF; LF] ++ lit "1" ++ [LF]
  ++ lit "00:00:01.000 --> 00:00:02.000" ++ [LF]
  ++ lit "He said " ++ [dquote] ++ lit "hello" ++ [dquote].

Definition empty_fs : Fs.state := Fs.mkState ∅ ∅.

(** [path.join] on segments that are already normal: joined by a slash. *)
Definition path_join (parts : list jsstring) : jsstring := join 47 parts.

Definition tmpdir : jsstring := lit "/tmp".

(** A clock reading. *)
Definition now : N := 1700000000000.

(** A subprocess that succeeds and leaves [content] at [p]. *)
Definition exec_writing (p content : jsstring) (command : jsstring)
  (s : Fs.state) : Interactive.ExecOutcome * Fs.state :=
  (Interactive.ExecOk,
   Fs.mkState (<[p := content]> (Fs.files s)) (Fs.readonly s)).

Definition sub_path : jsstring :=
  lit "/tmp/mx-player-1700000000000_sub_3.vtt".

Definition audio_path : jsstring :=
  lit "/tmp/mx-player-1700000000000_audio_1.aac".

(** The server side: directory, [path] functions, prober and runner. *)
Definition dirname : jsstring := lit "/srv/app".

Definition path_extname (name : jsstring) : jsstring := lit ".mkv".

Definition path_basename (name ext : jsstring) : jsstring :=
  take (length name - length ext) name.

Definition upload_file : Batch.File :=
  Batch.mkFile (lit "/srv/app/uploads/1700000000000-movie.mkv")
               (lit "1700000000000-movie.mkv")
               (lit "movie.mkv").

Definition ffprobe (inputFile : jsstring) (s : Fs.state) : Batch.ProbeResult :=
  Batch.ProbeOk (Batch.mkMetadata (Some all_streams)).

(** A runner that succeeds and leaves [quoted_vtt] at the output path. *)
Definition run_ok (c : Batch.FfmpegCommand) (s : Fs.state)
  : Batch.RunOutcome * Fs.state :=
  (Batch.RunEnd,
   match Batch.cmd_output c with
   | Some p => Fs.mkState (<[p := quoted_vtt]> (Fs.files s)) (Fs.readonly s)
   | None => s
   end).

(** A runner that fails on the stream of index 2 and succeeds otherwise. *)
Definition run_failing_on_2 (c : Batch.FfmpegCommand) (s : Fs.state)
  : Batch.RunOutcome * Fs.state :=
  if bool_decide (lit "-map 0:2" ∈ Batch.cmd_outputOptions c)
  then (Batch.RunError (lit "ffmpeg exited with code 1"), s)
  else run_ok c s.

Definition world0 : Batch.World := Batch.mkWorld empty_fs [].

Definition iworld0 : Interactive.World := Interactive.mkWorld empty_fs [].

End Demo.

(** ** The sweep of the temp directory *)

Module Sweep.

Section Sweep.

(** [os.tmpdir()], [path.join], and whether the system lets [fs.unlink]
    remove a path (when it does not, the error is logged and the entry
    stays). *)
Variable tmpdir : jsstring.
Variable path_join : list jsstring -> jsstring.
Variable unlink_ok : jsstring -> bool.

(** [fs.unlink(p, err => ...)]. *)
Definition unlink (p : jsstring) (s : Fs.state) : Fs.state :=
  if unlink_ok p then Fs.mkState (delete p (Fs.files s)) (Fs.readonly s)
  else s.

(** The body of the [for (const file of files)] loop. *)
Definition sweep_entry (s : Fs.state) (file : jsstring) : Fs.state :=
  if startsWith file (lit "mx-player-")
  then unlink (path_join [tmpdir; file]) s
  else s.

(** [cleanupTempFiles()]: [listing] is what [fs.readdir(tempDir)] calls back
    with, [None] for an error. *)
Definition cleanupTempFiles (listing : option (list jsstring))
  (s : Fs.state) : Fs.state :=
  match listing with
  | None => s
  | Some files => fold_left sweep_entry files s
  end.

End Sweep.

End Sweep.

(** ** The name the upload middleware stores a file under *)

Module Storage.

(** [Date.now() + '-' + file.originalname]. *)
Definition filename (now : N) (originalname : jsstring) : jsstring :=
  num_to_string now ++ lit "-" ++ originalname.

End Storage.

(** ** More concrete environments *)

Module Demo2.

(** A subprocess that fails with [stderr] and writes nothing. *)
Definition exec_failing (stderr : jsstring) (command : jsstring)
  (s : Fs.state) : Interactive.ExecOutcome * Fs.state :=
  (Interactive.ExecError stderr, s).

(** A file system with a file that is no artifact. *)
Definition notes_path : jsstring := lit "/tmp/notes.txt".

Definition fs_with_notes : Fs.state :=
  Fs.mkState {[ notes_path := lit "keep " ++ [dquote] ++ lit "me" ++ [dquote] ]}
             ∅.

Definition iworld_notes : Interactive.World :=
  Interactive.mkWorld fs_with_notes [].

(** A temp directory listing and its files. *)
Definition listing : list jsstring :=
  [lit "mx-player-1700000000000_sub_3.vtt"; lit "notes.txt"].

Definition fs_tmp : Fs.state :=
  Fs.mkState {[ Demo.sub_path := Demo.quoted_vtt;
                notes_path := lit "keep" ]} ∅.

Definition unlink_any (p : jsstring) : bool := true.

(** Probers that fail, and that find no stream. *)
Definition ffprobe_error (inputFile : jsstring) (s : Fs.state)
  : Batch.ProbeResult :=
  Batch.ProbeError (lit "ffprobe exited with code 1").

Definition ffprobe_empty (inputFile : jsstring) (s : Fs.state)
  : Batch.ProbeResult :=
  Batch.ProbeOk (Batch.mkMetadata (Some [])).

(** A world in which the upload is on disk. *)
Definition world_uploaded : Batch.World :=
  Batch.mkWorld
    (Fs.mkState {[ Batch.file_path Demo.upload_file := lit "MKV" ]} ∅) [].

End Demo2.

(** * Properties *)

(** ** Strings: [split] and [join] *)

Section SplitJoin.

Variable sep : N.

Lemma split_not_nil (s : jsstring) : split sep s <> [].
Proof.
  induction s as [|c s IH]; simpl; [discriminate|].
  destruct (c =? sep); [discriminate|].
  destruct (split sep s); discriminate.
Qed.

Lemma split_pieces_no_sep (s : jsstring) :
  Forall (fun l => ~ In sep l) (split sep s).
Proof.
  induction s as [|c s IH]; simpl.
  - constructor; [intros []|constructor].
  - destruct (N.eqb_spec c sep) as [->|Hne].
    + constructor; [intros []|exact IH].
    + destruct (split sep s) as [|l ls].
      * constructor; [|constructor]. intros [H|[]]. congruence.
      * inversion IH; subst. constructor; [|assumption].
        intros [H|H]; [congruence|contradiction].
Qed.

Lemma join_split (s : jsstring) : join sep (split sep s) = s.
Proof.
  induction s as [|c s IH]; simpl; [reflexivity|].
  destruct (N.eqb_spec c sep) as [->|Hne].
  - pose proof (split_not_nil s) as Hn.
    destruct (split sep s) as [|l ls]; [congruence|].
    simpl in *. now rewrite IH.
  - pose proof (split_not_nil s) as Hn.
    destruct (split sep s) as [|l ls]; [congruence|].
    simpl in *. destruct ls; simpl; now rewrite <- IH.
Qed.

Lemma split_no_sep (l : jsstring) : ~ In sep l -> split sep l = [l].
Proof.
  induction l as [|c l IH]; simpl; intros Hn; [reflexivity|].
  destruct (N.eqb_spec c sep) as [->|Hne]; [tauto|].
  rewrite IH; tauto.
Qed.

Lemma split_app_sep (l r : jsstring) :
  ~ In sep l -> split sep (l ++ sep :: r) = l :: split sep r.
Proof.
  induction l as [|c l IH]; simpl; intros Hn.
  - now rewrite N.eqb_refl.
  - destruct (N.eqb_spec c sep) as [->|Hne]; [tauto|].
    rewrite IH; tauto.
Qed.

Lemma split_join (ls : list jsstring) :
  ls <> [] -> Forall (fun l => ~ In sep l) ls -> split sep (join sep ls) = ls.
Proof.
  induction ls as [|l ls IH]; [congruence|].
  intros _ Hall. inversion Hall as [|? ? Hl Hls]; subst.
  destruct ls as [|l' ls].
  - simpl. now apply split_no_sep.
  - change (join sep (l :: l' :: ls)) with (l ++ sep :: join sep (l' :: ls)).
    rewrite split_app_sep by assumption.
    f_equal. apply IH; [discriminate|assumption].
Qed.

End SplitJoin.

(** ** Strings: [trim], digits and quotes *)

Lemma trimStart_decompose (s : jsstring) :
  exists a, s = a ++ trimStart s /\ forallb isWhiteSpace a = true.
Proof.
  induction s as [|c s [a [Ha Hws]]]; simpl.
  - exists []. auto.
  - destruct (isWhiteSpace c) eqn:Hc.
    + exists (c :: a). simpl. rewrite Hc, Hws. split; [congruence|reflexivity].
    + exists []. auto.
Qed.

Lemma trimEnd_decompose (s : jsstring) :
  exists b, s = trimEnd s ++ b /\ forallb isWhiteSpace b = true.
Proof.
  unfold trimEnd.
  destruct (trimStart_decompose (rev s)) as [a [Ha Hws]].
  exists (rev a). split.
  - rewrite <- rev_app_distr, <- Ha. symmetry. apply rev_involutive.
  - rewrite forallb_forall in *. intros x Hx. apply Hws. now apply in_rev.
Qed.

Lemma trim_decompose (s : jsstring) :
  exists a b, s = a ++ trim s ++ b
              /\ forallb isWhiteSpace a = true
              /\ forallb isWhiteSpace b = true.
Proof.
  destruct (trimStart_decompose s) as [a [Ha Hwa]].
  destruct (trimEnd_decompose (trimStart s)) as [b [Hb Hwb]].
  exists a, b. unfold trim. rewrite <- Hb. auto.
Qed.

Lemma trimStart_head (c : N) (s : jsstring) :
  isWhiteSpace c = false -> trimStart (c :: s) = c :: s.
Proof. intros H. simpl. now rewrite H. Qed.

Lemma isDigit_not_space (c : N) : isDigit c = true -> isWhiteSpace c = false.
Proof.
  unfold isDigit, isWhiteSpace. intros H.
  apply andb_true_iff in H as [H1 H2].
  apply N.leb_le in H1, H2.
  apply orb_false_iff. split.
  - simpl. repeat (apply orb_false_iff; split); try reflexivity;
      apply N.eqb_neq; lia.
  - apply andb_false_iff. left. apply N.leb_gt. lia.
Qed.

Lemma isDigit_not_quote (c : N) : isDigit c = true -> c <> dquote.
Proof.
  unfold isDigit, dquote. intros H ->. discriminate.
Qed.

Lemma isWhiteSpace_not_quote (c : N) : isWhiteSpace c = true -> c <> dquote.
Proof. intros H ->. discriminate. Qed.

Lemma trim_digits (s : jsstring) : forallb isDigit s = true -> trim s = s.
Proof.
  intros H. unfold trim, trimEnd.
  assert (Hs : trimStart s = s).
  { destruct s as [|c s]; [reflexivity|]. simpl in H.
    apply andb_true_iff in H as [Hc _].
    apply trimStart_head. now apply isDigit_not_space. }
  rewrite Hs.
  assert (Hr : trimStart (rev s) = rev s).
  { destruct (rev s) as [|c r] eqn:E; [reflexivity|].
    apply trimStart_head, isDigit_not_space.
    rewrite forallb_forall in H. apply H.
    apply in_rev. rewrite E. now left. }
  rewrite Hr. apply rev_involutive.
Qed.

Lemma remove_quotes_id (s : jsstring) :
  ~ In dquote s -> remove_quotes s = s.
Proof.
  induction s as [|c s IH]; simpl; intros Hn; [reflexivity|].
  destruct (N.eqb_spec c dquote) as [->|Hne]; simpl; [tauto|].
  rewrite IH; tauto.
Qed.

Lemma remove_quotes_idem (s : jsstring) :
  remove_quotes (remove_quotes s) = remove_quotes s.
Proof.
  apply remove_quotes_id. unfold remove_quotes. rewrite filter_In.
  intros [_ H]. now rewrite N.eqb_refl in H.
Qed.

Lemma remove_quotes_keeps_absent (c : N) (s : jsstring) :
  ~ In c s -> ~ In c (remove_quotes s).
Proof. unfold remove_quotes. rewrite filter_In. tauto. Qed.

(** ** The line classifier of the clean-up *)

Lemma streq_true (a b : jsstring) : streq a b = true <-> a = b.
Proof. unfold streq. apply bool_decide_eq_true. Qed.

Lemma streq_false (a b : jsstring) : streq a b = false <-> a <> b.
Proof. unfold streq. apply bool_decide_eq_false. Qed.

Lemma test_digits_all (s : jsstring) :
  test_digits s = true -> forallb isDigit s = true.
Proof. destruct s; [discriminate|auto]. Qed.

(** A line whose trimmed text is digits, the header or empty has no double
    quote in it: around the trimmed text there is only white space. *)
Lemma plain_trim_no_quote (line : jsstring) :
  test_digits (trim line) || streq (trim line) (lit "WEBVTT")
  || streq (trim line) (lit "") = true ->
  ~ In dquote line.
Proof.
  intros H.
  destruct (trim_decompose line) as [a [b [Hl [Ha Hb]]]].
  rewrite Hl. rewrite !in_app_iff.
  rewrite forallb_forall in Ha, Hb.
  intros [Hq|[Hq|Hq]].
  - exact (isWhiteSpace_not_quote _ (Ha _ Hq) eq_refl).
  - apply orb_true_iff in H as [H|H]; [apply orb_true_iff in H as [H|H]|].
    + apply test_digits_all in H. rewrite forallb_forall in H.
      exact (isDigit_not_quote _ (H _ Hq) eq_refl).
    + apply streq_true in H. rewrite H in Hq. vm_compute in Hq.
      repeat (destruct Hq as [Hq|Hq]; [discriminate|]). exact Hq.
    + apply streq_true in H. rewrite H in Hq. exact Hq.
  - exact (isWhiteSpace_not_quote _ (Hb _ Hq) eq_refl).
Qed.

(** The classifier of the code accepts every line the specification calls
    structural. *)
Lemma spec_structural_kept (line : jsstring) :
  spec_structural line = true -> clean_line line = line.
Proof.
  unfold spec_structural, clean_line. intros H.
  destruct (includes line (lit "-->")); [reflexivity|]. simpl in *.
  apply orb_true_iff in H as [H|H]; [apply orb_true_iff in H as [H|H]|].
  - rewrite (trim_digits line) by now apply test_digits_all.
    now rewrite H.
  - apply streq_true in H. subst line. reflexivity.
  - apply streq_true in H. subst line. reflexivity.
Qed.

(** What the callback does to a line, by the classification of the
    specification. *)
Lemma clean_line_spec (line : jsstring) :
  clean_line line = if spec_structural line then line else remove_quotes line.
Proof.
  destruct (spec_structural line) eqn:Hs; [now apply spec_structural_kept|].
  unfold clean_line.
  destruct (includes line (lit "-->") || test_digits (trim line)
            || streq (trim line) (lit "WEBVTT")
            || streq (trim line) (lit "")) eqn:Hc; [|reflexivity].
  symmetry. apply remove_quotes_id, plain_trim_no_quote.
  unfold spec_structural in Hs.
  destruct (includes line (lit "-->")); [discriminate Hs|exact Hc].
Qed.

Lemma clean_line_no_LF (line : jsstring) :
  ~ In LF line -> ~ In LF (clean_line line).
Proof.
  intros H. rewrite clean_line_spec.
  destruct (spec_structural line); [exact H|].
  now apply remove_quotes_keeps_absent.
Qed.

Lemma clean_line_idem (line : jsstring) :
  clean_line (clean_line line) = clean_line line.
Proof.
  rewrite (clean_line_spec line).
  destruct (spec_structural line) eqn:Hs.
  - now apply spec_structural_kept.
  - rewrite clean_line_spec.
    destruct (spec_structural (remove_quotes line)); [reflexivity|].
    apply remove_quotes_idem.
Qed.

(** Splitting the cleaned content gives back the cleaned lines. *)
Lemma split_cleanedContent (content : jsstring) :
  split LF (cleanedContent content) = List.map clean_line (split LF content).
Proof.
  unfold cleanedContent. apply split_join.
  - pose proof (split_not_nil LF content).
    destruct (split LF content); [congruence|discriminate].
  - apply Forall_map.
    pose proof (split_pieces_no_sep LF content) as Hp.
    eapply List.Forall_impl; [|exact Hp].
    intros l Hl. now apply clean_line_no_LF.
Qed.

(** ** The subtitle clean-up *)

(** C3. For every input with N lines the cleaned content has N lines, in the
    same order: a line that is structural (it contains the cue-time
    separator, is digits only, is the header literal or is empty) is the
    same before and after, and every other line is the input line with its
    double quotes removed. *)
Theorem cleanedContent_preserves_structure (content : jsstring) :
  length (split LF (cleanedContent content)) = length (split LF content)
  /\ split LF (cleanedContent content)
     = List.map (fun line =>
                   if spec_structural line then line else remove_quotes line)
                (split LF content).
Proof.
  rewrite split_cleanedContent. split.
  - apply length_map.
  - apply map_ext. intros line. apply clean_line_spec.
Qed.

(** C7. Cleaning the content twice gives the same content as cleaning it
    once. *)
Theorem cleanedContent_idempotent (content : jsstring) :
  cleanedContent (cleanedContent content) = cleanedContent content.
Proof.
  unfold cleanedContent at 1. rewrite split_cleanedContent.
  unfold cleanedContent. f_equal.
  rewrite map_map. apply map_ext. intros line. apply clean_line_idem.
Qed.

(** The clean-up scenario: header, blank line, cue index and cue timing are
    kept as they are; the cue text loses its quotes. *)
Example cleanedContent_scenario :
  List.map clean_line
    [lit "1"; lit "00:00:01.000 --> 00:00:02.000"; lit "WEBVTT";
     lit "He said " ++ [dquote] ++ lit "hello" ++ [dquote]; lit ""]
  = [lit "1"; lit "00:00:01.000 --> 00:00:02.000"; lit "WEBVTT";
     lit "He said hello"; lit ""]
  /\ cleanedContent Demo.quoted_vtt
     = lit "WEBVTT" ++ [LF; LF] ++ lit "1" ++ [LF]
       ++ lit "00:00:01.000 --> 00:00:02.000" ++ [LF]
       ++ lit "He said hello".
Proof. vm_compute. split; reflexivity. Qed.

(** A line the code keeps and the wording of the specification does not
    name: a cue index with a trailing carriage return.  It has no quote to
    lose, so both readings agree on it. *)
Example clean_line_crlf_index :
  spec_structural (lit "12" ++ [13]) = false
  /\ clean_line (lit "12" ++ [13]) = lit "12" ++ [13].
Proof. vm_compute. split; reflexivity. Qed.

(** ** Decimal numerals *)

Lemma uint_units_digits (d : Decimal.uint) :
  forallb isDigit (uint_units d) = true.
Proof. induction d; simpl; auto. Qed.

Lemma uint_units_inj (d e : Decimal.uint) :
  uint_units d = uint_units e -> d = e.
Proof.
  revert e. induction d; destruct e; simpl; intros H;
    try discriminate; try reflexivity;
    injection H as H; f_equal; auto.
Qed.

Lemma num_to_string_inj (n m : N) : num_to_string n = num_to_string m -> n = m.
Proof.
  unfold num_to_string. intros H. apply uint_units_inj in H.
  rewrite <- (Unsigned.of_to n), <- (Unsigned.of_to m). now rewrite H.
Qed.

Lemma num_to_string_digits (n : N) : forallb isDigit (num_to_string n) = true.
Proof. apply uint_units_digits. Qed.

(** Two texts that start with a run of digits closed by a non-digit agree
    only if the runs and the rests agree. *)
Lemma digit_run_unique (l1 l2 r1 r2 : jsstring) (x y : N) :
  forallb isDigit l1 = true -> forallb isDigit l2 = true ->
  isDigit x = false -> isDigit y = false ->
  l1 ++ x :: r1 = l2 ++ y :: r2 -> l1 = l2 /\ x :: r1 = y :: r2.
Proof.
  revert l2. induction l1 as [|c l1 IH]; intros [|d l2]; simpl;
    intros H1 H2 Hx Hy E.
  - auto.
  - injection E as -> _. apply andb_true_iff in H2 as [H2 _]. congruence.
  - injection E as -> _. apply andb_true_iff in H1 as [H1 _]. congruence.
  - injection E as -> E.
    apply andb_true_iff in H1 as [_ H1]. apply andb_true_iff in H2 as [_ H2].
    destruct (IH l2 H1 H2 Hx Hy E) as [-> ?]. auto.
Qed.

(** ** The [extract-stream] handler *)

Section InteractiveFacts.

Import Interactive.

Variable tmpdir : jsstring.
Variable path_join : list jsstring -> jsstring.
Variable exec : jsstring -> Fs.state -> ExecOutcome * Fs.state.

Lemma audio_name_inj (n1 i1 n2 i2 : N) :
  audio_name n1 i1 = audio_name n2 i2 -> n1 = n2 /\ i1 = i2.
Proof.
  unfold audio_name, uniqueId. rewrite <- !app_assoc. intros H.
  apply app_inv_head in H.
  change (lit "_audio_") with (95 :: lit "audio_") in H.
  rewrite <- !app_comm_cons in H.
  apply digit_run_unique in H as [Hn H];
    try apply num_to_string_digits; try reflexivity.
  injection H as H. apply app_inv_tail in H.
  split; now apply num_to_string_inj.
Qed.

Lemma sub_name_inj (n1 i1 n2 i2 : N) :
  sub_name n1 i1 = sub_name n2 i2 -> n1 = n2 /\ i1 = i2.
Proof.
  unfold sub_name, uniqueId. rewrite <- !app_assoc. intros H.
  apply app_inv_head in H.
  change (lit "_sub_") with (95 :: lit "sub_") in H.
  rewrite <- !app_comm_cons in H.
  apply digit_run_unique in H as [Hn H];
    try apply num_to_string_digits; try reflexivity.
  injection H as H. apply app_inv_tail in H.
  split; now apply num_to_string_inj.
Qed.

Lemma audio_name_not_sub_name (n1 i1 n2 i2 : N) :
  audio_name n1 i1 <> sub_name n2 i2.
Proof.
  unfold audio_name, sub_name, uniqueId. rewrite <- !app_assoc. intros H.
  apply app_inv_head in H.
  change (lit "_audio_") with (95 :: 97 :: lit "udio_") in H.
  change (lit "_sub_") with (95 :: 115 :: lit "ub_") in H.
  rewrite <- !app_comm_cons in H.
  apply digit_run_unique in H as [_ H];
    try apply num_to_string_digits; try reflexivity.
  discriminate H.
Qed.

(** What [build] returns, by the codec type. *)
Lemma build_audio (now : N) (filePath : jsstring) (stream : Stream) :
  codec_type stream = lit "audio" ->
  let outputPath := path_join [tmpdir; audio_name now (index stream)] in
  build tmpdir path_join now filePath stream
  = Some (audio_command_text filePath (index stream)
            (if streq (codec_name stream) (lit "aac")
             then lit "copy" else lit "aac")
            outputPath,
          outputPath).
Proof.
  intros Ht. unfold build. rewrite Ht. simpl.
  unfold audio_command_text.
  destruct (streq (codec_name stream) (lit "aac"));
    repeat (rewrite <- ?app_assoc; simpl); reflexivity.
Qed.

Lemma build_subtitle (now : N) (filePath : jsstring) (stream : Stream) :
  codec_type stream = lit "subtitle" ->
  exists command,
    build tmpdir path_join now filePath stream
    = Some (command, path_join [tmpdir; sub_name now (index stream)]).
Proof.
  intros Ht. unfold build. rewrite Ht. simpl. eauto.
Qed.

Lemma build_other (now : N) (filePath : jsstring) (stream : Stream) :
  codec_type stream <> lit "audio" -> codec_type stream <> lit "subtitle" ->
  build tmpdir path_join now filePath stream = None.
Proof.
  intros Ha Hs. unfold build.
  apply streq_false in Ha, Hs. now rewrite Ha, Hs.
Qed.

(** The output path of a built command, by cases. *)
Lemma build_path (now : N) (filePath : jsstring) (stream : Stream)
  (command p : jsstring) :
  build tmpdir path_join now filePath stream = Some (command, p) ->
  (codec_type stream = lit "audio"
   /\ p = path_join [tmpdir; audio_name now (index stream)])
  \/ (codec_type stream = lit "subtitle"
      /\ p = path_join [tmpdir; sub_name now (index stream)]).
Proof.
  unfold build.
  destruct (streq (codec_type stream) (lit "audio")) eqn:Ha.
  - apply streq_true in Ha. left.
    destruct (streq (codec_name stream) (lit "aac"));
      injection H as _ <-; auto.
  - destruct (streq (codec_type stream) (lit "subtitle")) eqn:Hs;
      [|discriminate].
    apply streq_true in Hs. right. injection H as _ <-; auto.
Qed.

End InteractiveFacts.

(** C8. A request whose stream is neither audio nor subtitle is rejected
    with the unsupported-type message; no command is built, nothing is
    handed to [exec], and the world is as before. *)
Theorem unsupported_stream_rejected
  (tmpdir : jsstring) (path_join : list jsstring -> jsstring)
  (exec : jsstring -> Fs.state -> Interactive.ExecOutcome * Fs.state)
  (now : N) (filePath : jsstring) (stream : Stream) (w : Interactive.World) :
  codec_type stream <> lit "audio" ->
  codec_type stream <> lit "subtitle" ->
  Interactive.build tmpdir path_join now filePath stream = None
  /\ Interactive.extract_stream tmpdir path_join exec now filePath stream w
     = (Interactive.Reject
          (Interactive.ReasonString
             (lit "Unsupported stream type for extraction.")), w)
  /\ Interactive.spawned
       (snd (Interactive.extract_stream tmpdir path_join exec now filePath
               stream w))
     = Interactive.spawned w.
Proof.
  intros Ha Hs.
  pose proof (build_other tmpdir path_join now filePath stream Ha Hs) as Hb.
  unfold Interactive.extract_stream. rewrite Hb. auto.
Qed.

Lemma unsupported_stream_rejected_witness :
  Interactive.build Demo.tmpdir Demo.path_join Demo.now
    (lit "/media/movie.mkv") Demo.video_stream = None
  /\ Interactive.extract_stream Demo.tmpdir Demo.path_join
       (Demo.exec_writing Demo.sub_path Demo.quoted_vtt) Demo.now
       (lit "/media/movie.mkv") Demo.video_stream Demo.iworld0
     = (Interactive.Reject
          (Interactive.ReasonString
             (lit "Unsupported stream type for extraction.")), Demo.iworld0)
  /\ Interactive.spawned
       (snd (Interactive.extract_stream Demo.tmpdir Demo.path_join
               (Demo.exec_writing Demo.sub_path Demo.quoted_vtt) Demo.now
               (lit "/media/movie.mkv") Demo.video_stream Demo.iworld0))
     = Interactive.spawned Demo.iworld0.
Proof.
  apply (unsupported_stream_rejected Demo.tmpdir Demo.path_join
           (Demo.exec_writing Demo.sub_path Demo.quoted_vtt) Demo.now
           (lit "/media/movie.mkv") Demo.video_stream Demo.iworld0);
    vm_compute; discriminate.
Defined.

(** Two calls build the same output path exactly when they read the same
    clock value and their streams have the same kind and the same index: so
    the paths of two calls are distinct whenever their clock readings, their
    kinds or their stream indices differ.  [path.join] is taken to keep
    distinct output names of the handler distinct, as it does for plain
    file names. *)
Theorem output_path_determines_call
  (tmpdir : jsstring) (path_join : list jsstring -> jsstring)
  (Hjoin : forall a b : jsstring,
      Interactive.OutputName a -> Interactive.OutputName b ->
      path_join [tmpdir; a] = path_join [tmpdir; b] -> a = b)
  (now1 now2 : N) (file1 file2 : jsstring) (s1 s2 : Stream)
  (c1 c2 p1 p2 : jsstring) :
  Interactive.build tmpdir path_join now1 file1 s1 = Some (c1, p1) ->
  Interactive.build tmpdir path_join now2 file2 s2 = Some (c2, p2) ->
  p1 = p2
  <-> now1 = now2 /\ index s1 = index s2 /\ codec_type s1 = codec_type s2.
Proof.
  intros H1 H2.
  apply build_path in H1 as [[K1 P1]|[K1 P1]];
    apply build_path in H2 as [[K2 P2]|[K2 P2]];
    rewrite P1, P2, K1, K2; split.
  - intros E.
    apply (Hjoin _ _ (Interactive.AudioName _ _) (Interactive.AudioName _ _))
      in E.
    apply audio_name_inj in E as [? ?]. auto.
  - intros [-> [-> _]]. reflexivity.
  - intros E.
    apply (Hjoin _ _ (Interactive.AudioName _ _) (Interactive.SubName _ _))
      in E.
    now apply audio_name_not_sub_name in E.
  - intros [_ [_ E]]. discriminate E.
  - intros E.
    apply (Hjoin _ _ (Interactive.SubName _ _) (Interactive.AudioName _ _))
      in E.
    symmetry in E. now apply audio_name_not_sub_name in E.
  - intros [_ [_ E]]. discriminate E.
  - intros E.
    apply (Hjoin _ _ (Interactive.SubName _ _) (Interactive.SubName _ _))
      in E.
    apply sub_name_inj in E as [? ?]. auto.
  - intros [-> [-> _]]. reflexivity.
Qed.

Lemma demo_path_join_inj (a b : jsstring) :
  Interactive.OutputName a -> Interactive.OutputName b ->
  Demo.path_join [Demo.tmpdir; a] = Demo.path_join [Demo.tmpdir; b] -> a = b.
Proof.
  unfold Demo.path_join. cbn [join]. intros _ _ H.
  apply app_inv_head in H. congruence.
Qed.

Lemma output_path_determines_call_witness :
  let c1 := Interactive.audio_command_text (lit "/media/a.mkv") 1 (lit "copy")
              Demo.audio_path in
  let p2 := lit "/tmp/mx-player-1700000000001_audio_1.aac" in
  let c2 := Interactive.audio_command_text (lit "/media/a.mkv") 1 (lit "copy")
              p2 in
  Interactive.build Demo.tmpdir Demo.path_join Demo.now (lit "/media/a.mkv")
    Demo.aac_stream = Some (c1, Demo.audio_path)
  /\ Interactive.build Demo.tmpdir Demo.path_join (Demo.now + 1)
       (lit "/media/a.mkv") Demo.aac_stream = Some (c2, p2)
  /\ (Demo.audio_path = p2
      <-> Demo.now = Demo.now + 1
          /\ index Demo.aac_stream = index Demo.aac_stream
          /\ codec_type Demo.aac_stream = codec_type Demo.aac_stream).
Proof.
  intros c1 p2 c2.
  split; [vm_compute; reflexivity|].
  split; [vm_compute; reflexivity|].
  apply (output_path_determines_call Demo.tmpdir Demo.path_join
           demo_path_join_inj Demo.now (Demo.now + 1)
           (lit "/media/a.mkv") (lit "/media/a.mkv")
           Demo.aac_stream Demo.aac_stream c1 c2 Demo.audio_path p2);
    vm_compute; reflexivity.
Defined.

(** C4. The handler names its clock-derived prefix [uniqueId] and relies on
    it to keep the outputs of different calls apart, but the prefix is not
    unique: at this input, two calls for the same audio stream index that
    read the same millisecond clock value, on two different source files,
    are both given the same output path, where the claim requires two
    distinct paths. *)
Lemma same_clock_reading_same_path :
  let exec := Demo.exec_writing Demo.audio_path (lit "ADTS") in
  let first :=
    Interactive.extract_stream Demo.tmpdir Demo.path_join exec Demo.now
      (lit "/media/a.mkv") Demo.aac_stream Demo.iworld0 in
  let second :=
    Interactive.extract_stream Demo.tmpdir Demo.path_join exec Demo.now
      (lit "/media/b.mkv") Demo.aac_stream (snd first) in
  fst first = Interactive.Resolve Demo.audio_path
  /\ fst second = Interactive.Resolve Demo.audio_path
  /\ length (Interactive.spawned (snd second)) = 2%nat.
Proof. vm_compute. auto. Qed.

(** The clean-up on the demo subtitle, end to end: the file the handler
    leaves has lost the quotes of its cue text. *)
Example extract_stream_cleans_demo_subtitle :
  Fs.readFileSync Demo.sub_path
    (Interactive.fs
       (snd (Interactive.extract_stream Demo.tmpdir Demo.path_join
               (Demo.exec_writing Demo.sub_path Demo.quoted_vtt) Demo.now
               (lit "/media/movie.mkv") Demo.sub_stream Demo.iworld0)))
  = Some (lit "WEBVTT" ++ [LF; LF] ++ lit "1" ++ [LF]
          ++ lit "00:00:01.000 --> 00:00:02.000" ++ [LF]
          ++ lit "He said hello").
Proof. vm_compute. reflexivity. Qed.


(** ** The [/upload] handler: the log of runs *)

Section TaskLog.

Import Batch.

Lemma well_logged_ret {A} (a : A) : well_logged (ret a).
Proof.
  intros w r w' H. injection H as <- <-.
  exists []. rewrite app_nil_r. split; [reflexivity|constructor].
Qed.

Lemma well_logged_throw {A} (m : jsstring) : well_logged (@throw A m).
Proof.
  intros w r w' H. injection H as <- <-.
  exists []. rewrite app_nil_r. split; [reflexivity|discriminate].
Qed.

Lemma well_logged_bind {A B} (t : Task A) (k : A -> Task B) :
  well_logged t -> (forall a, well_logged (k a)) -> well_logged (bind t k).
Proof.
  intros Ht Hk w r w' H. unfold bind in H.
  destruct (t w) as [[a|m] w1] eqn:E.
  - destruct (Ht _ _ _ E) as [n1 [L1 O1]].
    destruct (Hk a _ _ _ H) as [n2 [L2 O2]].
    exists (n1 ++ n2). split.
    + rewrite L2, L1. symmetry. apply app_assoc.
    + intros b ->. apply Forall_app. split; eauto.
  - injection H as <- <-.
    destruct (Ht _ _ _ E) as [n1 [L1 _]].
    exists n1. split; [exact L1|discriminate].
Qed.

Lemma well_logged_promise_all {A} (ts : list (Task A)) :
  Forall well_logged ts -> well_logged (promise_all ts).
Proof.
  induction 1 as [|t ts Ht _ IH]; intros w r w' H; simpl in H.
  - injection H as <- <-. exists []. rewrite app_nil_r.
    split; [reflexivity|constructor].
  - destruct (t w) as [r1 w1] eqn:E1.
    destruct (promise_all ts w1) as [rs w2] eqn:E2.
    injection H as <- <-.
    destruct (Ht _ _ _ E1) as [n1 [L1 O1]].
    destruct (IH _ _ _ E2) as [n2 [L2 O2]].
    exists (n1 ++ n2). split.
    + rewrite L2, L1. symmetry. apply app_assoc.
    + intros l Hl. destruct r1 as [a|m]; [|discriminate].
      destruct rs as [l'|m]; [|discriminate].
      apply Forall_app. split; eauto.
Qed.

Lemma Forall_imap_all {A B} (P : B -> Prop) (f : nat -> A -> B) (l : list A) :
  (forall i x, P (f i x)) -> Forall P (imap f l).
Proof.
  revert f. induction l as [|x l IH]; intros f Hf; simpl; constructor.
  - apply Hf.
  - apply IH. intros i y. apply Hf.
Qed.

Lemma cleanupFiles_procs (p : jsstring) (w : World) :
  procs (cleanupFiles p w) = procs w.
Proof. unfold cleanupFiles. destruct (Fs.existsSync p (fs w)); reflexivity. Qed.

Variable dirname : jsstring.
Variable path_join : list jsstring -> jsstring.
Variable path_basename : jsstring -> jsstring -> jsstring.
Variable path_extname : jsstring -> jsstring.
Variable ffprobe : jsstring -> Fs.state -> ProbeResult.
Variable run : FfmpegCommand -> Fs.state -> RunOutcome * Fs.state.

Lemma well_logged_run_ffmpeg (c : FfmpegCommand) :
  well_logged (run_ffmpeg run c).
Proof.
  intros w r w' H. unfold run_ffmpeg in H.
  destruct (run c (fs w)) as [o fs1]. injection H as <- <-.
  exists [(c, o)]. split; [reflexivity|].
  intros a Ha. destruct o; [|discriminate].
  constructor; [reflexivity|constructor].
Qed.

Lemma well_logged_probe (inputFile : jsstring) :
  well_logged (probe ffprobe inputFile).
Proof.
  intros w r w' H. unfold probe in H.
  exists []. rewrite app_nil_r.
  destruct (ffprobe inputFile (fs w)); injection H as <- <-;
    (split; [reflexivity|]); [discriminate|constructor].
Qed.

Lemma well_logged_audio_track (inputFile processedDir baseName : jsstring)
  (i : nat) (s : Stream) :
  well_logged (audio_track path_join run inputFile processedDir baseName i s).
Proof.
  apply well_logged_bind; [apply well_logged_run_ffmpeg|].
  intros _. apply well_logged_ret.
Qed.

Lemma well_logged_subtitle_track (inputFile processedDir baseName : jsstring)
  (i : nat) (s : Stream) :
  well_logged (subtitle_track path_join run inputFile processedDir baseName i s).
Proof.
  apply well_logged_bind; [apply well_logged_run_ffmpeg|].
  intros _. apply well_logged_ret.
Qed.

Lemma well_logged_process (f : File) (baseName processedDir : jsstring) :
  well_logged (process path_join ffprobe run f baseName processedDir).
Proof.
  unfold process.
  apply well_logged_bind; [apply well_logged_probe|]. intros metadata.
  apply well_logged_bind.
  { destruct (streams metadata) as [[|s l]|];
      [apply well_logged_throw|apply well_logged_ret|apply well_logged_throw]. }
  intros all.
  apply well_logged_bind; [apply well_logged_run_ffmpeg|]. intros _.
  apply well_logged_bind.
  { apply well_logged_promise_all, Forall_imap_all.
    intros i s. apply well_logged_audio_track. }
  intros audio.
  apply well_logged_bind.
  { apply well_logged_promise_all, Forall_imap_all.
    intros i s. apply well_logged_subtitle_track. }
  intros subs w r w' H. injection H as <- <-.
  exists []. rewrite app_nil_r, cleanupFiles_procs.
  split; [reflexivity|constructor].
Qed.

(** The runs a call of the handler adds to the log; when it answers with a
    manifest, all of them ended well. *)
Lemma upload_log (file : option File) (w : World) :
  exists new,
    procs (snd (upload dirname path_join path_basename path_extname ffprobe
                  run file w))
    = procs w ++ new
    /\ (forall m,
          fst (upload dirname path_join path_basename path_extname ffprobe
                 run file w) = Success m ->
          Forall (fun e => snd e = RunEnd) new).
Proof.
  unfold upload. destruct file as [f|].
  - destruct (getFilePaths dirname path_join path_basename path_extname
                (file_filename f)) as [baseName processedDir].
    destruct (process path_join ffprobe run f baseName processedDir w)
      as [[m|msg] w1] eqn:E;
      destruct (well_logged_process _ _ _ _ _ _ E) as [new [L O]];
      exists new; simpl; rewrite ?cleanupFiles_procs.
    + split; [exact L|]. intros m' _. eauto.
    + split; [exact L|]. discriminate.
  - exists []. simpl. rewrite app_nil_r. split; [reflexivity|discriminate].
Qed.

End TaskLog.

(** ** The [/upload] handler: the files *)

Section TaskFiles.

Import Batch.

Variable dirname : jsstring.
Variable path_join : list jsstring -> jsstring.
Variable path_basename : jsstring -> jsstring -> jsstring.
Variable path_extname : jsstring -> jsstring.
Variable ffprobe : jsstring -> Fs.state -> ProbeResult.
Variable run : FfmpegCommand -> Fs.state -> RunOutcome * Fs.state.












End TaskFiles.



(** C2. If any ffmpeg run started by a call of the upload handler fails,
    the call answers with the status-500 failure, not with a manifest. *)
Theorem failed_run_fails_upload
  (dirname : jsstring) (path_join : list jsstring -> jsstring)
  (path_basename : jsstring -> jsstring -> jsstring)
  (path_extname : jsstring -> jsstring)
  (ffprobe : jsstring -> Fs.state -> Batch.ProbeResult)
  (run : Batch.FfmpegCommand -> Fs.state -> Batch.RunOutcome * Fs.state)
  (file : option Batch.File) (w : Batch.World)
  (c : Batch.FfmpegCommand) (message : jsstring) :
  In (c, Batch.RunError message)
     (drop (length (Batch.procs w))
        (Batch.procs
           (snd (Batch.upload dirname path_join path_basename path_extname
                   ffprobe run file w)))) ->
  exists details,
    fst (Batch.upload dirname path_join path_basename path_extname ffprobe
           run file w)
    = Batch.Failure (lit "Video processing failed") details.
Proof.
  unfold Batch.upload, Batch.getFilePaths. destruct file as [f|]; simpl.
  - destruct (Batch.process path_join ffprobe run f _ _ w)
      as [[m|msg] w1] eqn:E; simpl; [|eauto].
    destruct (well_logged_process _ _ _ _ _ _ _ _ _ E) as [new [L O]].
    rewrite L, drop_app_length. intros Hin.
    specialize (O m eq_refl). rewrite List.Forall_forall in O.
    apply O in Hin. discriminate Hin.
  - rewrite drop_all. intros [].
Qed.

Lemma failed_run_fails_upload_witness :
  let result :=
    Batch.upload Demo.dirname Demo.path_join Demo.path_basename
      Demo.path_extname Demo.ffprobe Demo.run_failing_on_2
      (Some Demo.upload_file) Demo.world0 in
  let c :=
    Batch.audio_command Demo.path_join (Batch.file_path Demo.upload_file)
      (lit "/srv/app/processed/1700000000000-movie") 1 Demo.mp3_stream in
  In (c, Batch.RunError (lit "ffmpeg exited with code 1"))
     (drop (length (Batch.procs Demo.world0)) (Batch.procs (snd result)))
  /\ exists details,
       fst result = Batch.Failure (lit "Video processing failed") details.
Proof.
  intros result c.
  assert (Hin : In (c, Batch.RunError (lit "ffmpeg exited with code 1"))
                   (drop (length (Batch.procs Demo.world0))
                      (Batch.procs (snd result)))).
  { vm_compute. right. right. left. reflexivity. }
  split; [exact Hin|].
  exact (failed_run_fails_upload Demo.dirname Demo.path_join
           Demo.path_basename Demo.path_extname Demo.ffprobe
           Demo.run_failing_on_2 (Some Demo.upload_file) Demo.world0
           c (lit "ffmpeg exited with code 1") Hin).
Defined.

(** ** The [/upload] handler: commands and manifest *)

Section UploadFacts.

Import Batch.

Variable dirname : jsstring.
Variable path_join : list jsstring -> jsstring.
Variable path_basename : jsstring -> jsstring -> jsstring.
Variable path_extname : jsstring -> jsstring.
Variable ffprobe : jsstring -> Fs.state -> ProbeResult.
Variable run : FfmpegCommand -> Fs.state -> RunOutcome * Fs.state.

(** The values of a completed [Promise.all] over tasks that run a command
    and return a value fixed by position and element. *)
Lemma promise_all_values {A B} (g : nat -> A -> Task unit)
  (v : nat -> A -> B) (l : list A) (w w' : World) (vs : list B) :
  promise_all (imap (fun i x => bind (g i x) (fun _ => ret (v i x))) l) w
  = (Done vs, w') ->
  vs = imap v l.
Proof.
  revert g v w w' vs. induction l as [|x l IH]; intros g v w w' vs; simpl.
  - intros H. now injection H as <- _.
  - unfold bind at 1.
    destruct (g 0%nat x w) as [[[]|m] w1]; simpl.
    + destruct (promise_all _ w1) as [[l'|m] w2] eqn:E; [|discriminate].
      intros H. injection H as <- _. f_equal.
      exact (IH (g ∘ S) (v ∘ S) _ _ _ E).
    + destruct (promise_all _ w1) as [rs w2]. discriminate.
Qed.

Lemma map_imap {A B C} (h : B -> C) (f : nat -> A -> B) (l : list A) :
  List.map h (imap f l) = imap (fun i x => h (f i x)) l.
Proof.
  revert f. induction l as [|x l IH]; intros f; simpl; [reflexivity|].
  f_equal. apply IH.
Qed.

(** The first run of a call is the video command. *)
Lemma process_first_run (f : File) (baseName processedDir : jsstring)
  (w : World) (s : Stream) (l : list Stream) :
  ffprobe (file_path f) (fs w) = ProbeOk (mkMetadata (Some (s :: l))) ->
  exists o rest,
    procs (snd (process path_join ffprobe run f baseName processedDir w))
    = procs w
      ++ (video_command path_join (file_path f) processedDir
            (find_video (s :: l)), o) :: rest.
Proof.
  intros Hp. unfold process.
  unfold bind at 1. unfold probe. rewrite Hp.
  unfold bind at 1. cbn [streams ret].
  unfold bind at 1. unfold run_ffmpeg at 1.
  destruct (run _ (fs w)) as [o fs1]. exists o.
  destruct o.
  - match goal with
    | |- context [bind ?t ?k ?w1] =>
        destruct (bind t k w1) as [r w2] eqn:E;
        assert (Hwl : well_logged (bind t k))
    end.
    { apply well_logged_bind.
      - apply well_logged_promise_all, Forall_imap_all.
        intros i x. apply well_logged_audio_track.
      - intros audio. apply well_logged_bind.
        + apply well_logged_promise_all, Forall_imap_all.
          intros i x. apply well_logged_subtitle_track.
        + intros subs w3 r3 w4 H. injection H as <- <-.
          exists []. rewrite app_nil_r, cleanupFiles_procs.
          split; [reflexivity|constructor]. }
    destruct (Hwl _ _ _ E) as [new [L _]].
    exists new. simpl. rewrite L. simpl. now rewrite <- app_assoc.
  - exists []. reflexivity.
Qed.

(** The tracks of a manifest, from the probed streams. *)
Lemma process_manifest (f : File) (baseName processedDir : jsstring)
  (w w' : World) (all : list Stream) (m : Manifest) :
  ffprobe (file_path f) (fs w) = ProbeOk (mkMetadata (Some all)) ->
  process path_join ffprobe run f baseName processedDir w = (Done m, w') ->
  List.map label (audioTracks m) = imap audio_label (audio_streams all)
  /\ List.map label (subtitleTracks m)
     = imap subtitle_label (subtitle_streams all).
Proof.
  intros Hp. unfold process.
  unfold bind at 1. unfold probe. rewrite Hp.
  unfold bind at 1. cbn [streams].
  destruct all as [|s l]; [discriminate|]. cbn [ret].
  unfold bind at 1.
  destruct (run_ffmpeg run _ w) as [[[]|msg] w1]; [|discriminate].
  unfold bind at 1.
  destruct (promise_all _ w1) as [[audio|msg] w2] eqn:Ea; [|discriminate].
  unfold bind at 1.
  destruct (promise_all _ w2) as [[subs|msg] w3] eqn:Es; [|discriminate].
  intros H. injection H as <- _. cbn [audioTracks subtitleTracks].
  unfold audio_track in Ea. unfold subtitle_track in Es.
  apply (promise_all_values
           (fun i x =>
              run_ffmpeg run
                (audio_command path_join (file_path f) processedDir i x)))
    in Ea.
  apply (promise_all_values
           (fun i x =>
              run_ffmpeg run
                (subtitle_command path_join (file_path f) processedDir i x)))
    in Es.
  subst audio subs. rewrite !map_imap. split; reflexivity.
Qed.

End UploadFacts.

(** ** Labels *)

Lemma or_or_label (prefix : jsstring) (i : nat) (s : Stream) :
  logical_or (logical_or (tags_title s) (tags_language s))
             (str (prefix ++ num_to_string (N.of_nat (i + 1))))
  = Labels.label_by_content prefix i s.
Proof.
  unfold Labels.label_by_content, logical_or.
  destruct (tags_title s) as [|[|c t]]; simpl;
    destruct (tags_language s) as [|[|d l]]; reflexivity.
Qed.

(** C9, as amended. When the upload handler answers with a manifest, the
    label of each audio and subtitle entry is the title tag of its stream if
    that is present and not empty, else the language tag if that is present
    and not empty, else [Audio n] or [Subtitle n], with n the 1-indexed
    position of the stream among the streams of its own kind. *)
Theorem manifest_labels
  (dirname : jsstring) (path_join : list jsstring -> jsstring)
  (path_basename : jsstring -> jsstring -> jsstring)
  (path_extname : jsstring -> jsstring)
  (ffprobe : jsstring -> Fs.state -> Batch.ProbeResult)
  (run : Batch.FfmpegCommand -> Fs.state -> Batch.RunOutcome * Fs.state)
  (f : Batch.File) (w w' : Batch.World) (all : list Stream)
  (m : Batch.Manifest) :
  ffprobe (Batch.file_path f) (Batch.fs w)
  = Batch.ProbeOk (Batch.mkMetadata (Some all)) ->
  Batch.upload dirname path_join path_basename path_extname ffprobe run
    (Some f) w = (Batch.Success m, w') ->
  List.map Batch.label (Batch.audioTracks m)
  = imap (Labels.label_by_content (lit "Audio ")) (Batch.audio_streams all)
  /\ List.map Batch.label (Batch.subtitleTracks m)
     = imap (Labels.label_by_content (lit "Subtitle "))
            (Batch.subtitle_streams all).
Proof.
  intros Hp. unfold Batch.upload, Batch.getFilePaths.
  destruct (Batch.process path_join ffprobe run f _ _ w)
    as [[m'|msg] w1] eqn:E; [|discriminate].
  intros H. injection H as <- _.
  destruct (process_manifest _ _ _ _ _ _ _ _ _ _ Hp E) as [Ha Hs].
  rewrite Ha, Hs. split; apply imap_ext; intros i s _.
  - apply (or_or_label (lit "Audio ")).
  - apply (or_or_label (lit "Subtitle ")).
Qed.

Lemma manifest_labels_witness :
  let result :=
    Batch.upload Demo.dirname Demo.path_join Demo.path_basename
      Demo.path_extname Demo.ffprobe Demo.run_ok (Some Demo.upload_file)
      Demo.world0 in
  let m :=
    Batch.mkManifest (lit "/processed/1700000000000-movie/video.mp4")
      [Batch.mkTrack (lit "/processed/1700000000000-movie/audio_0.aac")
         (str (lit "Commentary"));
       Batch.mkTrack (lit "/processed/1700000000000-movie/audio_1.aac")
         (str (lit "Audio 2"))]
      [Batch.mkTrack (lit "/processed/1700000000000-movie/sub_0.vtt")
         (str (lit "eng"))]
      (lit "movie.mkv") in
  result = (Batch.Success m, snd result)
  /\ List.map Batch.label (Batch.audioTracks m)
     = imap (Labels.label_by_content (lit "Audio "))
            (Batch.audio_streams Demo.all_streams)
  /\ List.map Batch.label (Batch.subtitleTracks m)
     = imap (Labels.label_by_content (lit "Subtitle "))
            (Batch.subtitle_streams Demo.all_streams).
Proof.
  intros result m.
  assert (Hr : result = (Batch.Success m, snd result)).
  { vm_compute. reflexivity. }
  split; [exact Hr|].
  exact (manifest_labels Demo.dirname Demo.path_join Demo.path_basename
           Demo.path_extname Demo.ffprobe Demo.run_ok Demo.upload_file
           Demo.world0 (snd result) Demo.all_streams m eq_refl Hr).
Defined.

(** C9, the claim as stated fails: the subtitle stream of the demo file has
    a title tag that is present and empty, and a language tag; its label in
    the manifest is the language, not the title the rule by presence
    gives. *)
Lemma empty_title_is_not_the_label :
  let result :=
    Batch.upload Demo.dirname Demo.path_join Demo.path_basename
      Demo.path_extname Demo.ffprobe Demo.run_ok (Some Demo.upload_file)
      Demo.world0 in
  tags_title Demo.sub_stream = str (lit "")
  /\ Batch.subtitle_streams Demo.all_streams = [Demo.sub_stream]
  /\ (exists m,
         fst result = Batch.Success m
         /\ List.map Batch.label (Batch.subtitleTracks m) = [str (lit "eng")])
  /\ Labels.label_by_presence (lit "Subtitle ") 0 Demo.sub_stream
     = str (lit "")
  /\ str (lit "eng") <> str (lit "").
Proof.
  vm_compute. split; [reflexivity|]. split; [reflexivity|].
  split; [eexists; split; reflexivity|].
  split; [reflexivity|discriminate].
Qed.

(** C10. In the manifest the upload handler returns, a stream whose title
    tag is present but the empty string is not labelled by that title: its
    label is its language tag when that is a non-empty string, and the
    positional fallback when the language tag is missing or empty as well.
    A stream with no title and an empty language tag gets the positional
    fallback too.  This holds for the audio and for the subtitle tracks,
    with the position taken among the streams of the same kind. *)
Theorem empty_tags_fall_through
  (dirname : jsstring) (path_join : list jsstring -> jsstring)
  (path_basename : jsstring -> jsstring -> jsstring)
  (path_extname : jsstring -> jsstring)
  (ffprobe : jsstring -> Fs.state -> Batch.ProbeResult)
  (run : Batch.FfmpegCommand -> Fs.state -> Batch.RunOutcome * Fs.state)
  (f : Batch.File) (w w' : Batch.World) (all : list Stream)
  (m : Batch.Manifest) (i : nat) (s : Stream) :
  ffprobe (Batch.file_path f) (Batch.fs w)
  = Batch.ProbeOk (Batch.mkMetadata (Some all)) ->
  Batch.upload dirname path_join path_basename path_extname ffprobe run
    (Some f) w = (Batch.Success m, w') ->
  tags_title s = str (lit "")
  \/ (tags_title s = undefined /\ tags_language s = str (lit "")) ->
  let expected prefix :=
    match tags_language s with
    | str (c :: t) => str (c :: t)
    | _ => str (prefix ++ num_to_string (N.of_nat (i + 1)))
    end in
  (Batch.audio_streams all !! i = Some s ->
   List.map Batch.label (Batch.audioTracks m) !! i
   = Some (expected (lit "Audio ")))
  /\ (Batch.subtitle_streams all !! i = Some s ->
      List.map Batch.label (Batch.subtitleTracks m) !! i
      = Some (expected (lit "Subtitle "))).
Proof.
  intros Hp Hu Hempty expected. revert Hu.
  unfold Batch.upload, Batch.getFilePaths.
  destruct (Batch.process path_join ffprobe run f _ _ w)
    as [[m'|msg] w1] eqn:E; [|discriminate].
  intros H. injection H as <- _.
  destruct (process_manifest _ _ _ _ _ _ _ _ _ _ Hp E) as [Ha Hs].
  rewrite Ha, Hs, !list_lookup_imap.
  assert (Hl : forall prefix,
             logical_or (logical_or (tags_title s) (tags_language s))
                        (str (prefix ++ num_to_string (N.of_nat (i + 1))))
             = expected prefix).
  { intros prefix. unfold expected, logical_or.
    destruct Hempty as [-> | [-> ->]]; simpl; [|reflexivity].
    destruct (tags_language s) as [|[|c t]]; reflexivity. }
  split; intros ->; simpl; f_equal; apply Hl.
Qed.

Lemma empty_tags_fall_through_witness :
  let result :=
    Batch.upload Demo.dirname Demo.path_join Demo.path_basename
      Demo.path_extname Demo.ffprobe Demo.run_ok (Some Demo.upload_file)
      Demo.world0 in
  let m :=
    Batch.mkManifest (lit "/processed/1700000000000-movie/video.mp4")
      [Batch.mkTrack (lit "/processed/1700000000000-movie/audio_0.aac")
         (str (lit "Commentary"));
       Batch.mkTrack (lit "/processed/1700000000000-movie/audio_1.aac")
         (str (lit "Audio 2"))]
      [Batch.mkTrack (lit "/processed/1700000000000-movie/sub_0.vtt")
         (str (lit "eng"))]
      (lit "movie.mkv") in
  (Demo.ffprobe (Batch.file_path Demo.upload_file) (Batch.fs Demo.world0)
   = Batch.ProbeOk (Batch.mkMetadata (Some Demo.all_streams))
   /\ result = (Batch.Success m, snd result)
   /\ tags_title Demo.sub_stream = str (lit "")
   /\ Batch.subtitle_streams Demo.all_streams !! 0%nat = Some Demo.sub_stream)
  /\ List.map Batch.label (Batch.subtitleTracks m) !! 0%nat
     = Some (str (lit "eng")).
Proof.
  intros result m.
  assert (Hr : result = (Batch.Success m, snd result)).
  { vm_compute. reflexivity. }
  split; [repeat split; try reflexivity; exact Hr|].
  exact (proj2
           (empty_tags_fall_through Demo.dirname Demo.path_join
              Demo.path_basename Demo.path_extname Demo.ffprobe Demo.run_ok
              Demo.upload_file Demo.world0 (snd result) Demo.all_streams m
              0%nat Demo.sub_stream eq_refl Hr (or_introl eq_refl))
           eq_refl).
Defined.

(** ** Codec choices *)

(** C6, as amended. The first run of an upload call is the video command:
    it is always built with the video codec [copy], and the output option
    [-c:v libx264] is added to it exactly when the probed video stream has
    the codec name [h264]; the choice is made from the probe result alone,
    the request carries no flag for it. *)
Theorem video_command_of_upload
  (dirname : jsstring) (path_join : list jsstring -> jsstring)
  (path_basename : jsstring -> jsstring -> jsstring)
  (path_extname : jsstring -> jsstring)
  (ffprobe : jsstring -> Fs.state -> Batch.ProbeResult)
  (run : Batch.FfmpegCommand -> Fs.state -> Batch.RunOutcome * Fs.state)
  (f : Batch.File) (w : Batch.World) (s : Stream) (l : list Stream) :
  ffprobe (Batch.file_path f) (Batch.fs w)
  = Batch.ProbeOk (Batch.mkMetadata (Some (s :: l))) ->
  let processedDir :=
    snd (Batch.getFilePaths dirname path_join path_basename path_extname
           (Batch.file_filename f)) in
  let c :=
    Batch.video_command path_join (Batch.file_path f) processedDir
      (Batch.find_video (s :: l)) in
  (exists o,
      Batch.procs
        (snd (Batch.upload dirname path_join path_basename path_extname
                ffprobe run (Some f) w))
      !! length (Batch.procs w) = Some (c, o))
  /\ Batch.cmd_videoCodec c = Some (lit "copy")
  /\ Batch.cmd_outputOptions c
     = match Batch.find_video (s :: l) with
       | Some v =>
           if streq (codec_name v) (lit "h264")
           then [lit "-c:v libx264"] else []
       | None => []
       end.
Proof.
  intros Hp processedDir c. split; [|split].
  - unfold Batch.upload, Batch.getFilePaths.
    destruct (process_first_run path_join ffprobe run f
                (path_basename (Batch.file_filename f)
                   (path_extname (Batch.file_filename f)))
                processedDir w s l Hp) as [o [rest H]].
    exists o. fold c in H. revert H.
    unfold processedDir, Batch.getFilePaths. simpl.
    destruct (Batch.process path_join ffprobe run f _ _ w)
      as [[m|msg] w1]; simpl; intros H;
      rewrite ?cleanupFiles_procs, H; now apply list_lookup_middle.
  - unfold c, Batch.video_command.
    destruct (Batch.find_video (s :: l)) as [v|]; [|reflexivity].
    destruct (streq (codec_name v) (lit "h264")); reflexivity.
  - unfold c, Batch.video_command.
    destruct (Batch.find_video (s :: l)) as [v|]; [|reflexivity].
    destruct (streq (codec_name v) (lit "h264")); reflexivity.
Qed.

Lemma video_command_of_upload_witness :
  let processedDir := lit "/srv/app/processed/1700000000000-movie" in
  let c :=
    Batch.video_command Demo.path_join (Batch.file_path Demo.upload_file)
      processedDir (Some Demo.video_stream) in
  Demo.ffprobe (Batch.file_path Demo.upload_file) (Batch.fs Demo.world0)
  = Batch.ProbeOk (Batch.mkMetadata (Some Demo.all_streams))
  /\ (exists o,
         Batch.procs
           (snd (Batch.upload Demo.dirname Demo.path_join Demo.path_basename
                   Demo.path_extname Demo.ffprobe Demo.run_ok
                   (Some Demo.upload_file) Demo.world0))
         !! length (Batch.procs Demo.world0) = Some (c, o))
  /\ Batch.cmd_videoCodec c = Some (lit "copy")
  /\ Batch.cmd_outputOptions c = [lit "-c:v libx264"].
Proof.
  split; [reflexivity|].
  exact (video_command_of_upload Demo.dirname Demo.path_join
           Demo.path_basename Demo.path_extname Demo.ffprobe Demo.run_ok
           Demo.upload_file Demo.world0 Demo.video_stream
           [Demo.aac_stream; Demo.mp3_stream; Demo.sub_stream] eq_refl).
Defined.

(** C6, the claim as stated fails: the upload request carries the file and
    nothing else, and for a file whose video stream is h264 the handler on
    its own adds the re-encode option to the video command. *)
Lemma upload_reencodes_h264_unasked :
  exists c o,
    Batch.procs
      (snd (Batch.upload Demo.dirname Demo.path_join Demo.path_basename
              Demo.path_extname Demo.ffprobe Demo.run_ok
              (Some Demo.upload_file) Demo.world0))
    !! 0%nat = Some (c, o)
    /\ Batch.cmd_videoCodec c = Some (lit "copy")
    /\ Batch.cmd_outputOptions c = [lit "-c:v libx264"].
Proof. vm_compute. do 2 eexists. repeat split; reflexivity. Qed.

(** The copy branch of the one-stream handler on the demo [aac] stream. *)
Example extract_stream_copies_aac :
  Interactive.spawned
    (snd (Interactive.extract_stream Demo.tmpdir Demo.path_join
            (Demo.exec_writing Demo.audio_path (lit "ADTS")) Demo.now
            (lit "/media/movie.mkv") Demo.aac_stream Demo.iworld0))
  = [lit "ffmpeg -y -i " ++ [dquote] ++ lit "/media/movie.mkv" ++ [dquote]
     ++ lit " -map 0:1 -c:a copy " ++ [dquote]
     ++ lit "/tmp/mx-player-1700000000000_audio_1.aac" ++ [dquote]].
Proof. vm_compute. reflexivity. Qed.

(** C1, the claim as stated fails in the upload handler: the second run of
    the demo call is the extraction of the audio stream whose codec name is
    [aac], and its command selects the encoder [aac], not [copy]. *)
Lemma upload_transcodes_aac_stream :
  codec_name Demo.aac_stream = lit "aac"
  /\ exists c o,
       Batch.procs
         (snd (Batch.upload Demo.dirname Demo.path_join Demo.path_basename
                 Demo.path_extname Demo.ffprobe Demo.run_ok
                 (Some Demo.upload_file) Demo.world0))
       !! 1%nat = Some (c, o)
       /\ Batch.cmd_outputOptions c = [lit "-map 0:1"]
       /\ Batch.cmd_audioCodec c = Some (lit "aac")
       /\ Batch.cmd_audioCodec c <> Some (lit "copy").
Proof.
  vm_compute. split; [reflexivity|]. do 2 eexists.
  split; [reflexivity|]. split; [reflexivity|].
  split; [reflexivity|discriminate].
Qed.

(** * Further properties of the handlers *)

(** ** The clean-up, character by character *)

Lemma remove_quotes_app (a b : jsstring) :
  remove_quotes (a ++ b) = remove_quotes a ++ remove_quotes b.
Proof. apply List.filter_app. Qed.

Lemma remove_quotes_join (ls : list jsstring) :
  remove_quotes (join LF ls) = join LF (List.map remove_quotes ls).
Proof.
  induction ls as [|l ls IH]; [reflexivity|].
  destruct ls as [|l' ls]; [reflexivity|].
  change (join LF (l :: l' :: ls)) with (l ++ LF :: join LF (l' :: ls)).
  rewrite remove_quotes_app.
  change (remove_quotes (LF :: join LF (l' :: ls)))
    with (LF :: remove_quotes (join LF (l' :: ls))).
  rewrite IH. reflexivity.
Qed.

Lemma remove_quotes_clean_line (line : jsstring) :
  remove_quotes (clean_line line) = remove_quotes line.
Proof.
  rewrite clean_line_spec.
  destruct (spec_structural line); [reflexivity|apply remove_quotes_idem].
Qed.

Lemma clean_line_without_quote (line : jsstring) :
  ~ In dquote line -> clean_line line = line.
Proof.
  intros H. rewrite clean_line_spec.
  destruct (spec_structural line); [reflexivity|now apply remove_quotes_id].
Qed.

Lemma split_piece_subset (sep c : N) (s line : jsstring) :
  In line (split sep s) -> In c line -> In c s.
Proof.
  revert line. induction s as [|d s IH]; simpl; intros line Hl Hc.
  - destruct Hl as [<-|[]]. exact Hc.
  - destruct (d =? sep).
    + destruct Hl as [<-|Hl]; [destruct Hc|]. right. eauto.
    + pose proof (split_not_nil sep s) as Hn.
      destruct (split sep s) as [|l ls]; [congruence|].
      destruct Hl as [<-|Hl].
      * destruct Hc as [->|Hc]; [now left|]. right.
        apply (IH l); [now left|exact Hc].
      * right. apply (IH line); [now right|exact Hc].
Qed.

(** Content without a double quote is left exactly as it is. *)
Theorem cleanedContent_without_quote (content : jsstring) :
  ~ In dquote content -> cleanedContent content = content.
Proof.
  intros H. unfold cleanedContent.
  rewrite (map_ext_in clean_line (fun l => l)).
  - rewrite List.map_id. apply join_split.
  - intros line Hl. apply clean_line_without_quote.
    intros Hq. apply H. exact (split_piece_subset LF dquote _ _ Hl Hq).
Qed.

Lemma cleanedContent_without_quote_witness :
  ~ In dquote (lit "WEBVTT" ++ [LF; LF] ++ lit "1" ++ [LF] ++ lit "Hello")
  /\ cleanedContent (lit "WEBVTT" ++ [LF; LF] ++ lit "1" ++ [LF] ++ lit "Hello")
     = lit "WEBVTT" ++ [LF; LF] ++ lit "1" ++ [LF] ++ lit "Hello".
Proof.
  assert (H : ~ In dquote
                (lit "WEBVTT" ++ [LF; LF] ++ lit "1" ++ [LF] ++ lit "Hello")).
  { vm_compute. intros H.
    repeat (destruct H as [H|H]; [discriminate H|]). exact H. }
  split; [exact H|]. exact (cleanedContent_without_quote _ H).
Defined.

(** The clean-up changes nothing but double quotes: with the quotes taken
    out, the content before and after is the same text. *)
Theorem cleanedContent_only_drops_quotes (content : jsstring) :
  remove_quotes (cleanedContent content) = remove_quotes content.
Proof.
  unfold cleanedContent.
  rewrite remove_quotes_join, map_map.
  rewrite (map_ext _ remove_quotes remove_quotes_clean_line).
  rewrite <- remove_quotes_join. now rewrite join_split.
Qed.

(** After the clean-up a double quote is left only on a line that holds the
    cue-time separator. *)
Theorem quotes_survive_only_on_timing_lines (content line : jsstring) :
  In line (split LF (cleanedContent content)) ->
  In dquote line ->
  includes line (lit "-->") = true.
Proof.
  rewrite split_cleanedContent, in_map_iff.
  intros [l [<- _]] Hq. unfold clean_line in *.
  destruct (includes l (lit "-->")) eqn:Hi; simpl in *; [exact Hi|].
  destruct (test_digits (trim l) || streq (trim l) (lit "WEBVTT")
            || streq (trim l) (lit "")) eqn:Hp.
  - now apply plain_trim_no_quote in Hp.
  - exfalso. revert Hq. unfold remove_quotes. rewrite filter_In.
    intros [_ Hq]. now rewrite N.eqb_refl in Hq.
Qed.

Lemma quotes_survive_only_on_timing_lines_witness :
  let content :=
    lit "00:01.000 --> 00:02.000 region:" ++ [dquote] ++ lit "r" ++ [dquote]
    ++ [LF] ++ lit "say " ++ [dquote] ++ lit "hi" ++ [dquote] in
  let line :=
    lit "00:01.000 --> 00:02.000 region:" ++ [dquote] ++ lit "r" ++ [dquote] in
  In line (split LF (cleanedContent content))
  /\ In dquote line
  /\ includes line (lit "-->") = true.
Proof.
  intros content line.
  assert (H1 : In line (split LF (cleanedContent content))).
  { vm_compute. left. reflexivity. }
  assert (H2 : In dquote line).
  { vm_compute. do 31 right. left. reflexivity. }
  split; [exact H1|]. split; [exact H2|].
  exact (quotes_survive_only_on_timing_lines content line H1 H2).
Defined.

(** ** The sweep of the temp directory *)

Section SweepFacts.

Variable tmpdir : jsstring.
Variable path_join : list jsstring -> jsstring.
Variable unlink_ok : jsstring -> bool.

Lemma startsWith_app (p s : jsstring) : startsWith (p ++ s) p = true.
Proof.
  induction p as [|c p IH]; simpl; [now destruct s|].
  now rewrite N.eqb_refl, IH.
Qed.

Lemma sweep_entry_lookup (s : Fs.state) (file p : jsstring) :
  Fs.files (Sweep.sweep_entry tmpdir path_join unlink_ok s file) !! p
  = if startsWith file (lit "mx-player-")
       && bool_decide (path_join [tmpdir; file] = p) && unlink_ok p
    then None else Fs.files s !! p.
Proof.
  unfold Sweep.sweep_entry, Sweep.unlink.
  destruct (startsWith file (lit "mx-player-")); [|reflexivity]. simpl.
  case_bool_decide as Hp.
  - subst p. destruct (unlink_ok _); simpl; [apply lookup_delete_eq|reflexivity].
  - simpl. destruct (unlink_ok _); simpl; [|reflexivity].
    now apply lookup_delete_ne.
Qed.

(** What a sweep leaves at each path. *)
Lemma sweep_lookup (files : list jsstring) (s : Fs.state) (p : jsstring) :
  Fs.files (Sweep.cleanupTempFiles tmpdir path_join unlink_ok (Some files) s)
  !! p
  = if existsb (fun file =>
                  startsWith file (lit "mx-player-")
                  && bool_decide (path_join [tmpdir; file] = p)
                  && unlink_ok p) files
    then None else Fs.files s !! p.
Proof.
  simpl. revert s. induction files as [|f files IH]; intros s; simpl.
  - reflexivity.
  - rewrite IH, sweep_entry_lookup.
    destruct (startsWith f (lit "mx-player-")
              && bool_decide (path_join [tmpdir; f] = p) && unlink_ok p);
      simpl; [|reflexivity].
    now destruct (existsb _ files).
Qed.

Lemma sweep_readonly (listing : option (list jsstring)) (s : Fs.state) :
  Fs.readonly (Sweep.cleanupTempFiles tmpdir path_join unlink_ok listing s)
  = Fs.readonly s.
Proof.
  destruct listing as [files|]; [|reflexivity]. simpl.
  revert s. induction files as [|f files IH]; intros s; simpl; [reflexivity|].
  rewrite IH. unfold Sweep.sweep_entry, Sweep.unlink.
  destruct (startsWith f _); [|reflexivity].
  now destruct (unlink_ok _).
Qed.

Lemma sweep_lookup_marked (files : list jsstring) (s : Fs.state)
  (file : jsstring) :
  In file files ->
  startsWith file (lit "mx-player-") = true ->
  unlink_ok (path_join [tmpdir; file]) = true ->
  Fs.files (Sweep.cleanupTempFiles tmpdir path_join unlink_ok (Some files) s)
  !! path_join [tmpdir; file] = None.
Proof.
  intros Hin Hm Hu. rewrite sweep_lookup.
  rewrite (proj2 (existsb_exists _ files)); [reflexivity|].
  exists file. split; [exact Hin|].
  now rewrite Hm, Hu, bool_decide_eq_true_2.
Qed.

End SweepFacts.

(** Every listed entry whose name starts with the marker, and that the
    system lets the sweep unlink, is gone after the sweep, whatever happens
    to the other entries. *)
Theorem sweep_removes_marked
  (tmpdir : jsstring) (path_join : list jsstring -> jsstring)
  (unlink_ok : jsstring -> bool) (files : list jsstring) (s : Fs.state)
  (file : jsstring) :
  In file files ->
  startsWith file (lit "mx-player-") = true ->
  unlink_ok (path_join [tmpdir; file]) = true ->
  Fs.readFileSync (path_join [tmpdir; file])
    (Sweep.cleanupTempFiles tmpdir path_join unlink_ok (Some files) s)
  = None.
Proof.
  intros Hin Hm Hu. unfold Fs.readFileSync.
  now apply sweep_lookup_marked.
Qed.

Lemma sweep_removes_marked_witness :
  In (lit "mx-player-1700000000000_sub_3.vtt") Demo2.listing
  /\ Fs.readFileSync Demo.sub_path Demo2.fs_tmp = Some Demo.quoted_vtt
  /\ Fs.readFileSync
       (Demo.path_join [Demo.tmpdir; lit "mx-player-1700000000000_sub_3.vtt"])
       (Sweep.cleanupTempFiles Demo.tmpdir Demo.path_join Demo2.unlink_any
          (Some Demo2.listing) Demo2.fs_tmp)
     = None.
Proof.
  assert (Hin : In (lit "mx-player-1700000000000_sub_3.vtt") Demo2.listing).
  { left. reflexivity. }
  split; [exact Hin|]. split; [vm_compute; reflexivity|].
  exact (sweep_removes_marked Demo.tmpdir Demo.path_join Demo2.unlink_any
           Demo2.listing Demo2.fs_tmp _ Hin eq_refl eq_refl).
Defined.

(** The sweep is selective and only removes: a path keeps its file and
    content unless it is the temp-directory path of a listed entry whose
    name starts with the marker, and no path gains a file. *)
Theorem sweep_selective
  (tmpdir : jsstring) (path_join : list jsstring -> jsstring)
  (unlink_ok : jsstring -> bool) (listing : option (list jsstring))
  (s : Fs.state) (p : jsstring) :
  let after := Sweep.cleanupTempFiles tmpdir path_join unlink_ok listing s in
  Fs.readonly after = Fs.readonly s
  /\ (Fs.readFileSync p after = Fs.readFileSync p s
      \/ (Fs.readFileSync p after = None
          /\ exists files file,
               listing = Some files /\ In file files
               /\ startsWith file (lit "mx-player-") = true
               /\ p = path_join [tmpdir; file])).
Proof.
  intros after. split; [apply sweep_readonly|].
  unfold after, Fs.readFileSync.
  destruct listing as [files|]; [|now left].
  rewrite sweep_lookup.
  destruct (existsb _ files) eqn:E; [|now left].
  right. split; [reflexivity|].
  apply existsb_exists in E as [file [Hin H]].
  apply andb_true_iff in H as [H _]. apply andb_true_iff in H as [Hm Hp].
  apply bool_decide_eq_true in Hp.
  exists files, file. auto.
Qed.

(** A second sweep over the same listing changes nothing. *)
Theorem sweep_idempotent
  (tmpdir : jsstring) (path_join : list jsstring -> jsstring)
  (unlink_ok : jsstring -> bool) (listing : option (list jsstring))
  (s : Fs.state) :
  let sweep := Sweep.cleanupTempFiles tmpdir path_join unlink_ok listing in
  sweep (sweep s) = sweep s.
Proof.
  intros sweep. unfold sweep.
  destruct listing as [files|]; [|reflexivity].
  pose proof (sweep_readonly tmpdir path_join unlink_ok (Some files)
                (Sweep.cleanupTempFiles tmpdir path_join unlink_ok
                   (Some files) s)) as Hr.
  pose proof (fun p =>
                sweep_lookup tmpdir path_join unlink_ok files
                  (Sweep.cleanupTempFiles tmpdir path_join unlink_ok
                     (Some files) s) p) as Hl.
  destruct (Sweep.cleanupTempFiles tmpdir path_join unlink_ok (Some files)
              (Sweep.cleanupTempFiles tmpdir path_join unlink_ok (Some files)
                 s)) as [f2 r2].
  destruct (Sweep.cleanupTempFiles tmpdir path_join unlink_ok (Some files) s)
    as [f1 r1] eqn:E1.
  pose proof (fun p => sweep_lookup tmpdir path_join unlink_ok files s p)
    as H1.
  rewrite E1 in H1. simpl in *. subst r2. f_equal.
  apply map_eq. intros p. rewrite Hl.
  destruct (existsb _ files) eqn:E; [|reflexivity].
  specialize (H1 p). rewrite E in H1. now rewrite H1.
Qed.

(** ** The [extract-stream] handler: what it writes and what the sweep finds *)

Lemma output_name_marked (name : jsstring) :
  Interactive.OutputName name -> startsWith name (lit "mx-player-") = true.
Proof.
  intros [now idx|now idx];
    unfold Interactive.audio_name, Interactive.sub_name, Interactive.uniqueId;
    rewrite <- app_assoc; apply startsWith_app.
Qed.

Lemma build_output_name
  (tmpdir : jsstring) (path_join : list jsstring -> jsstring)
  (now : N) (filePath : jsstring) (stream : Stream) (command p : jsstring) :
  Interactive.build tmpdir path_join now filePath stream = Some (command, p) ->
  exists name, Interactive.OutputName name /\ p = path_join [tmpdir; name].
Proof.
  intros H. apply build_path in H as [[_ ->]|[_ ->]];
    eexists; (split; [constructor|reflexivity]).
Qed.

(** Of its own the handler changes at most one file: the output file of a
    subtitle stream, after the subprocess succeeded, and only if that file
    is there to read; it then holds the cleaned content.  Every other path,
    and every path after a failure or for an audio stream, is as the
    subprocess left it; no file is created. *)
Theorem handler_changes_only_subtitle_output
  (tmpdir : jsstring) (path_join : list jsstring -> jsstring)
  (exec : jsstring -> Fs.state -> Interactive.ExecOutcome * Fs.state)
  (now : N) (filePath : jsstring) (stream : Stream) (w : Interactive.World)
  (command p : jsstring) (outcome : Interactive.ExecOutcome) (fs1 : Fs.state)
  (q : jsstring) :
  Interactive.build tmpdir path_join now filePath stream = Some (command, p) ->
  exec command (Interactive.fs w) = (outcome, fs1) ->
  let after :=
    Interactive.fs
      (snd (Interactive.extract_stream tmpdir path_join exec now filePath
              stream w)) in
  Fs.readonly after = Fs.readonly fs1
  /\ (Fs.readFileSync q after = Fs.readFileSync q fs1
      \/ (q = p
          /\ codec_type stream = lit "subtitle"
          /\ outcome = Interactive.ExecOk
          /\ exists content,
               Fs.readFileSync p fs1 = Some content
               /\ Fs.readFileSync p after = Some (cleanedContent content))).
Proof.
  intros Hb He after. unfold after, Interactive.extract_stream.
  rewrite Hb, He. destruct outcome as [stderr|]; simpl; [auto|].
  destruct (streq (codec_type stream) (lit "subtitle")) eqn:Hs; [|auto].
  apply streq_true in Hs.
  unfold Interactive.clean_subtitle_file, Fs.writeFileSync.
  destruct (Fs.readFileSync p fs1) as [content|] eqn:Hr; [|auto].
  destruct (decide (p ∈ Fs.readonly fs1)); [auto|]. simpl.
  split; [reflexivity|].
  destruct (decide (q = p)) as [->|Hq].
  - right. repeat split; try assumption.
    exists content. split; [reflexivity|].
    unfold Fs.readFileSync. simpl. apply lookup_insert_eq.
  - left. unfold Fs.readFileSync. simpl. now apply lookup_insert_ne.
Qed.

Lemma handler_changes_only_subtitle_output_witness :
  let exec := Demo.exec_writing Demo.sub_path Demo.quoted_vtt in
  let command :=
    lit "ffmpeg -y -i " ++ [dquote] ++ lit "/media/movie.mkv" ++ [dquote]
    ++ lit " -map 0:3 -c:s webvtt " ++ [dquote] ++ Demo.sub_path ++ [dquote] in
  let fs1 := snd (exec command Demo2.fs_with_notes) in
  let after :=
    Interactive.fs
      (snd (Interactive.extract_stream Demo.tmpdir Demo.path_join exec
              Demo.now (lit "/media/movie.mkv") Demo.sub_stream
              Demo2.iworld_notes)) in
  Interactive.build Demo.tmpdir Demo.path_join Demo.now
    (lit "/media/movie.mkv") Demo.sub_stream = Some (command, Demo.sub_path)
  /\ Fs.readonly after = Fs.readonly fs1
  /\ (Fs.readFileSync Demo2.notes_path after
      = Fs.readFileSync Demo2.notes_path fs1
      \/ (Demo2.notes_path = Demo.sub_path
          /\ codec_type Demo.sub_stream = lit "subtitle"
          /\ Interactive.ExecOk = Interactive.ExecOk
          /\ exists content,
               Fs.readFileSync Demo.sub_path fs1 = Some content
               /\ Fs.readFileSync Demo.sub_path after
                  = Some (cleanedContent content))).
Proof.
  intros exec command fs1 after.
  assert (Hb : Interactive.build Demo.tmpdir Demo.path_join Demo.now
                 (lit "/media/movie.mkv") Demo.sub_stream
               = Some (command, Demo.sub_path)).
  { vm_compute. reflexivity. }
  split; [exact Hb|].
  exact (handler_changes_only_subtitle_output Demo.tmpdir Demo.path_join exec
           Demo.now (lit "/media/movie.mkv") Demo.sub_stream
           Demo2.iworld_notes command Demo.sub_path Interactive.ExecOk fs1
           Demo2.notes_path Hb eq_refl).
Defined.

(** Every path the handler resolves with is a temp-directory entry whose
    name starts with the marker of the sweep: a later sweep that lists the
    entry and is allowed to unlink it removes the artifact. *)
Theorem resolved_artifact_is_swept
  (tmpdir : jsstring) (path_join : list jsstring -> jsstring)
  (exec : jsstring -> Fs.state -> Interactive.ExecOutcome * Fs.state)
  (now : N) (filePath : jsstring) (stream : Stream)
  (w w' : Interactive.World) (p : jsstring) :
  Interactive.extract_stream tmpdir path_join exec now filePath stream w
  = (Interactive.Resolve p, w') ->
  exists name,
    p = path_join [tmpdir; name]
    /\ startsWith name (lit "mx-player-") = true
    /\ forall (unlink_ok : jsstring -> bool) (files : list jsstring)
              (s : Fs.state),
         In name files -> unlink_ok p = true ->
         Fs.readFileSync p
           (Sweep.cleanupTempFiles tmpdir path_join unlink_ok (Some files) s)
         = None.
Proof.
  unfold Interactive.extract_stream.
  destruct (Interactive.build tmpdir path_join now filePath stream)
    as [[command outputPath]|] eqn:Hb; [|discriminate].
  destruct (exec command (Interactive.fs w)) as [[stderr|] fs1];
    [discriminate|].
  intros H. injection H as <- _.
  destruct (build_output_name _ _ _ _ _ _ _ Hb) as [name [Hn ->]].
  exists name. split; [reflexivity|].
  split; [now apply output_name_marked|].
  intros unlink_ok files s Hin Hu. unfold Fs.readFileSync.
  apply sweep_lookup_marked; [exact Hin|now apply output_name_marked|exact Hu].
Qed.

Lemma resolved_artifact_is_swept_witness :
  let exec := Demo.exec_writing Demo.sub_path Demo.quoted_vtt in
  let run :=
    Interactive.extract_stream Demo.tmpdir Demo.path_join exec Demo.now
      (lit "/media/movie.mkv") Demo.sub_stream Demo.iworld0 in
  run = (Interactive.Resolve Demo.sub_path, snd run)
  /\ exists name,
       Demo.sub_path = Demo.path_join [Demo.tmpdir; name]
       /\ startsWith name (lit "mx-player-") = true
       /\ forall (unlink_ok : jsstring -> bool) (files : list jsstring)
                 (s : Fs.state),
            In name files -> unlink_ok Demo.sub_path = true ->
            Fs.readFileSync Demo.sub_path
              (Sweep.cleanupTempFiles Demo.tmpdir Demo.path_join unlink_ok
                 (Some files) s)
            = None.
Proof.
  intros exec run.
  assert (Hr : run = (Interactive.Resolve Demo.sub_path, snd run)).
  { vm_compute. reflexivity. }
  split; [exact Hr|].
  exact (resolved_artifact_is_swept Demo.tmpdir Demo.path_join exec Demo.now
           (lit "/media/movie.mkv") Demo.sub_stream Demo.iworld0 (snd run)
           Demo.sub_path Hr).
Defined.

(** ** The stored name of an upload *)

(** Two uploads are stored under the same name only if they were received
    in the same millisecond and have the same original name. *)
Theorem storage_filename_inj (now1 now2 : N) (name1 name2 : jsstring) :
  Storage.filename now1 name1 = Storage.filename now2 name2 ->
  now1 = now2 /\ name1 = name2.
Proof.
  unfold Storage.filename. change (lit "-") with [45]. simpl. intros H.
  apply digit_run_unique in H as [Hn H];
    try apply num_to_string_digits; try reflexivity.
  split; [now apply num_to_string_inj|congruence].
Qed.

Lemma storage_filename_inj_witness :
  Storage.filename 1700000000000 (lit "movie.mkv")
  = lit "1700000000000-movie.mkv"
  /\ (1700000000000 = 1700000000000 /\ lit "movie.mkv" = lit "movie.mkv").
Proof.
  split; [vm_compute; reflexivity|].
  apply (storage_filename_inj 1700000000000 1700000000000
           (lit "movie.mkv") (lit "movie.mkv")).
  reflexivity.
Defined.

(** ** The [/upload] handler: which runs start, and what the manifest lists *)

Section UploadMore.

Import Batch.

Variable dirname : jsstring.
Variable path_join : list jsstring -> jsstring.
Variable path_basename : jsstring -> jsstring -> jsstring.
Variable path_extname : jsstring -> jsstring.
Variable ffprobe : jsstring -> Fs.state -> ProbeResult.
Variable run : FfmpegCommand -> Fs.state -> RunOutcome * Fs.state.

(** A [Promise.all] over run-then-return tasks starts the command of every
    element, in order, whatever the outcomes. *)
Lemma promise_all_commands {A B} (cmd : nat -> A -> FfmpegCommand)
  (v : nat -> A -> B) (l : list A) (w w' : World) (r : Result (list B)) :
  promise_all
    (imap (fun i x => bind (run_ffmpeg run (cmd i x)) (fun _ => ret (v i x)))
          l) w = (r, w') ->
  exists new, procs w' = procs w ++ new /\ List.map fst new = imap cmd l.
Proof.
  revert cmd v w w' r. induction l as [|x l IH]; intros cmd v w w' r; simpl.
  - intros H. injection H as _ <-. exists []. now rewrite app_nil_r.
  - unfold bind at 1. unfold run_ffmpeg at 1.
    destruct (run (cmd 0%nat x) (fs w)) as [o fs1].
    destruct o as [|m]; simpl;
      destruct (promise_all _ _) as [rs w2] eqn:E;
      intros H; injection H as _ <-;
      destruct (IH (cmd ∘ S) (v ∘ S) _ _ _ E) as [new [L M]];
      eexists ((cmd 0%nat x, _) :: new);
      (split; [rewrite L; simpl; now rewrite <- app_assoc
              |simpl; f_equal; exact M]).
Qed.

(** With a runner that never fails, it completes with every value. *)
Lemma promise_all_never_fails {A B} (cmd : nat -> A -> FfmpegCommand)
  (v : nat -> A -> B) (l : list A) (w : World) :
  (forall c st, fst (run c st) = RunEnd) ->
  exists w',
    promise_all
      (imap (fun i x =>
               bind (run_ffmpeg run (cmd i x)) (fun _ => ret (v i x))) l) w
    = (Done (imap v l), w').
Proof.
  intros Hrun. revert cmd v w.
  induction l as [|x l IH]; intros cmd v w; simpl.
  - eauto.
  - unfold bind at 1. unfold run_ffmpeg at 1.
    pose proof (Hrun (cmd 0%nat x) (fs w)) as H0.
    destruct (run (cmd 0%nat x) (fs w)) as [o fs1]. simpl in H0. subst o.
    simpl.
    destruct (IH (cmd ∘ S) (v ∘ S)
                (mkWorld fs1 (procs w ++ [(cmd 0%nat x, RunEnd)])))
      as [w' E].
    exists w'.
    change (promise_all
              (imap ((fun i x0 =>
                        bind (run_ffmpeg run (cmd i x0))
                             (fun _ => ret (v i x0))) ∘ S) l)
              (mkWorld fs1 (procs w ++ [(cmd 0%nat x, RunEnd)])))
      with (promise_all
              (imap (fun i x0 =>
                       bind (run_ffmpeg run ((cmd ∘ S) i x0))
                            (fun _ => ret ((v ∘ S) i x0))) l)
              (mkWorld fs1 (procs w ++ [(cmd 0%nat x, RunEnd)]))).
    rewrite E. reflexivity.
Qed.

(** The tracks and the URLs of the manifest a completed [try] block gives. *)
Lemma process_tracks (f : File) (baseName processedDir : jsstring)
  (w w' : World) (m : Manifest) :
  process path_join ffprobe run f baseName processedDir w = (Done m, w') ->
  exists all,
    all <> []
    /\ ffprobe (file_path f) (fs w) = ProbeOk (mkMetadata (Some all))
    /\ audioTracks m
    = imap (fun i stream =>
              mkTrack (lit "/processed/" ++ baseName ++ lit "/audio_"
                       ++ num_to_string (N.of_nat i) ++ lit ".aac")
                      (audio_label i stream))
           (audio_streams all)
    /\ subtitleTracks m
       = imap (fun i stream =>
                 mkTrack (lit "/processed/" ++ baseName ++ lit "/sub_"
                          ++ num_to_string (N.of_nat i) ++ lit ".vtt")
                         (subtitle_label i stream))
              (subtitle_streams all)
    /\ videoUrl m = lit "/processed/" ++ baseName ++ lit "/video.mp4"
    /\ filename m = file_originalname f.
Proof.
  unfold process. unfold bind at 1. unfold probe.
  destruct (ffprobe (file_path f) (fs w)) as [msg|[st]]; [discriminate|].
  unfold bind at 1. cbn [streams].
  destruct st as [[|s l]|]; [discriminate| |discriminate].
  cbn [ret]. unfold bind at 1.
  destruct (run_ffmpeg run _ w) as [[[]|msg] w1]; [|discriminate].
  unfold bind at 1.
  destruct (promise_all _ w1) as [[audio|msg] w2] eqn:Ea; [|discriminate].
  unfold bind at 1.
  destruct (promise_all _ w2) as [[subs|msg] w3] eqn:Es; [|discriminate].
  intros H. injection H as <- _. exists (s :: l).
  split; [discriminate|]. split; [reflexivity|].
  cbn [audioTracks subtitleTracks videoUrl filename].
  unfold audio_track in Ea. unfold subtitle_track in Es.
  apply (promise_all_values
           (fun i x =>
              run_ffmpeg run
                (audio_command path_join (file_path f) processedDir i x)))
    in Ea.
  apply (promise_all_values
           (fun i x =>
              run_ffmpeg run
                (subtitle_command path_join (file_path f) processedDir i x)))
    in Es.
  subst audio subs. auto.
Qed.

(** The commands a call starts, by group: the video command alone when its
    run fails; else the video command and every audio command when an audio
    run fails; else those and every subtitle command. *)
Lemma process_started (f : File) (baseName processedDir : jsstring)
  (w w' : World) (r : Result Manifest) (s : Stream) (l : list Stream) :
  ffprobe (file_path f) (fs w) = ProbeOk (mkMetadata (Some (s :: l))) ->
  process path_join ffprobe run f baseName processedDir w = (r, w') ->
  let video :=
    video_command path_join (file_path f) processedDir (find_video (s :: l)) in
  let audio :=
    imap (audio_command path_join (file_path f) processedDir)
         (audio_streams (s :: l)) in
  let subs :=
    imap (subtitle_command path_join (file_path f) processedDir)
         (subtitle_streams (s :: l)) in
  exists new,
    procs w' = procs w ++ new
    /\ (((exists msg, r = Thrown msg)
         /\ (List.map fst new = [video] \/ List.map fst new = video :: audio))
        \/ List.map fst new = video :: audio ++ subs).
Proof.
  intros Hp. unfold process.
  unfold bind at 1. unfold probe. rewrite Hp.
  unfold bind at 1. cbn [streams ret].
  unfold bind at 1. unfold run_ffmpeg at 1.
  destruct (run _ (fs w)) as [o fs1].
  destruct o as [|msg]; cbv zeta.
  - unfold bind at 1.
    destruct (promise_all _ _) as [[tracks|msg] w2] eqn:Ea.
    + unfold bind at 1.
      destruct (promise_all _ w2) as [[tracks'|msg] w3] eqn:Es;
        intros H; injection H as <- <-;
        unfold audio_track in Ea; unfold subtitle_track in Es;
        apply (promise_all_commands
                 (audio_command path_join (file_path f) processedDir)) in Ea;
        apply (promise_all_commands
                 (subtitle_command path_join (file_path f) processedDir))
          in Es;
        destruct Ea as [na [La Ma]]; destruct Es as [ns [Ls Ms]];
        eexists ((_, RunEnd) :: na ++ ns);
        (split;
         [rewrite ?cleanupFiles_procs, Ls, La; simpl;
          now rewrite <- !app_assoc
         |right; simpl; now rewrite List.map_app, Ma, Ms]).
    + intros H. injection H as <- <-.
      unfold audio_track in Ea.
      apply (promise_all_commands
               (audio_command path_join (file_path f) processedDir)) in Ea.
      destruct Ea as [na [La Ma]].
      eexists ((_, RunEnd) :: na). split.
      * rewrite La. simpl. now rewrite <- app_assoc.
      * left. split; [eauto|]. right. simpl. now rewrite Ma.
  - intros H. injection H as <- <-.
    eexists [(_, RunError msg)]. split; [reflexivity|].
    left. split; [eauto|]. now left.
Qed.

(** With a prober that finds streams and a runner that never fails, the
    [try] block completes. *)
Lemma process_never_fails (f : File) (baseName processedDir : jsstring)
  (w : World) (s : Stream) (l : list Stream) :
  ffprobe (file_path f) (fs w) = ProbeOk (mkMetadata (Some (s :: l))) ->
  (forall c st, fst (run c st) = RunEnd) ->
  exists m w',
    process path_join ffprobe run f baseName processedDir w = (Done m, w').
Proof.
  intros Hp Hrun. unfold process.
  unfold bind at 1. unfold probe. rewrite Hp.
  unfold bind at 1. cbn [streams ret].
  unfold bind at 1. unfold run_ffmpeg at 1.
  pose proof (Hrun (video_command path_join (file_path f) processedDir
                      (find_video (s :: l))) (fs w)) as H0.
  destruct (run _ (fs w)) as [o fs1]. simpl in H0. subst o. cbv zeta.
  unfold bind at 1. unfold audio_track.
  match goal with
  | |- context [promise_all (imap ?t ?xs) ?w1] =>
      destruct (promise_all_never_fails
                  (audio_command path_join (file_path f) processedDir)
                  (fun i stream =>
                     mkTrack (lit "/processed/" ++ baseName ++ lit "/audio_"
                              ++ num_to_string (N.of_nat i) ++ lit ".aac")
                             (audio_label i stream))
                  xs w1 Hrun) as [w2 Ea]
  end.
  rewrite Ea. unfold bind at 1. unfold subtitle_track.
  destruct (promise_all_never_fails
              (subtitle_command path_join (file_path f) processedDir)
              (fun i stream =>
                 mkTrack (lit "/processed/" ++ baseName ++ lit "/sub_"
                          ++ num_to_string (N.of_nat i) ++ lit ".vtt")
                         (subtitle_label i stream))
              (subtitle_streams (s :: l)) w2 Hrun) as [w3 Es].
  rewrite Es. eauto.
Qed.

(** A [Promise.all] over run-then-return tasks, with the outcomes: every
    command is started; it completes with every value when all the runs
    ended well, and throws the message of a failed run otherwise. *)
Lemma promise_all_trace {A B} (cmd : nat -> A -> FfmpegCommand)
  (v : nat -> A -> B) (l : list A) (w w' : World) (r : Result (list B)) :
  promise_all
    (imap (fun i x => bind (run_ffmpeg run (cmd i x)) (fun _ => ret (v i x)))
          l) w = (r, w') ->
  exists new,
    procs w' = procs w ++ new
    /\ List.map fst new = imap cmd l
    /\ ((Forall (fun e => snd e = RunEnd) new /\ r = Done (imap v l))
        \/ (exists c msg, In (c, RunError msg) new /\ r = Thrown msg)).
Proof.
  revert cmd v w w' r. induction l as [|x l IH]; intros cmd v w w' r; simpl.
  - intros H. injection H as <- <-. exists []. rewrite app_nil_r.
    split; [reflexivity|]. split; [reflexivity|]. left. split; constructor.
  - unfold bind at 1. unfold run_ffmpeg at 1.
    destruct (run (cmd 0%nat x) (fs w)) as [o fs1].
    destruct o as [|m]; simpl;
      destruct (promise_all _ _) as [rs w2] eqn:E;
      intros H; injection H as <- <-;
      destruct (IH (cmd ∘ S) (v ∘ S) _ _ _ E) as [new [L [M O]]];
      eexists ((cmd 0%nat x, _) :: new);
      (split; [rewrite L; simpl; now rewrite <- app_assoc|]);
      (split; [simpl; f_equal; exact M|]).
    + destruct O as [[Hall ->]|[c [msg [Hin ->]]]].
      * left. split; [constructor; [reflexivity|exact Hall]|reflexivity].
      * right. exists c, msg. split; [now right|reflexivity].
    + right. exists (cmd 0%nat x), m. split; [now left|reflexivity].
Qed.

(** The runs of a call and how they ended, in the four ways the [try] block
    can go: the video run fails; an audio run fails; a subtitle run fails;
    every run ends well. *)
Lemma process_trace (f : File) (baseName processedDir : jsstring)
  (w w' : World) (r : Result Manifest) (s : Stream) (l : list Stream) :
  ffprobe (file_path f) (fs w) = ProbeOk (mkMetadata (Some (s :: l))) ->
  process path_join ffprobe run f baseName processedDir w = (r, w') ->
  let video :=
    video_command path_join (file_path f) processedDir (find_video (s :: l)) in
  let audio :=
    imap (audio_command path_join (file_path f) processedDir)
         (audio_streams (s :: l)) in
  let subs :=
    imap (subtitle_command path_join (file_path f) processedDir)
         (subtitle_streams (s :: l)) in
  let ended (e : FfmpegCommand * RunOutcome) := snd e = RunEnd in
  exists new,
    procs w' = procs w ++ new
    /\ ((exists msg, new = [(video, RunError msg)] /\ r = Thrown msg)
        \/ (exists newA c msg,
               new = (video, RunEnd) :: newA
               /\ List.map fst newA = audio
               /\ In (c, RunError msg) newA
               /\ r = Thrown msg)
        \/ (exists newA newS c msg,
               new = (video, RunEnd) :: newA ++ newS
               /\ List.map fst newA = audio /\ Forall ended newA
               /\ List.map fst newS = subs
               /\ In (c, RunError msg) newS
               /\ r = Thrown msg)
        \/ (exists newA newS m,
               new = (video, RunEnd) :: newA ++ newS
               /\ List.map fst newA = audio /\ Forall ended newA
               /\ List.map fst newS = subs /\ Forall ended newS
               /\ r = Done m)).
Proof.
  intros Hp. unfold process.
  unfold bind at 1. unfold probe. rewrite Hp.
  unfold bind at 1. cbn [streams ret].
  unfold bind at 1. unfold run_ffmpeg at 1.
  destruct (run _ (fs w)) as [o fs1].
  destruct o as [|msg]; cbv zeta.
  - unfold bind at 1.
    destruct (promise_all _ _) as [ra w2] eqn:Ea.
    unfold audio_track in Ea.
    apply (promise_all_trace
             (audio_command path_join (file_path f) processedDir)) in Ea.
    destruct Ea as [na [La [Ma [[Oa ->]|[c [m [Hin ->]]]]]]].
    + unfold bind at 1.
      destruct (promise_all _ w2) as [rs w3] eqn:Es.
      unfold subtitle_track in Es.
      apply (promise_all_trace
               (subtitle_command path_join (file_path f) processedDir)) in Es.
      destruct Es as [ns [Ls [Ms [[Os ->]|[c [m [Hin ->]]]]]]];
        intros H; injection H as <- <-;
        eexists ((_, RunEnd) :: na ++ ns);
        (split;
         [rewrite ?cleanupFiles_procs, Ls, La; simpl;
          now rewrite <- !app_assoc|]).
      * do 3 right. eexists na, ns, _. repeat split; auto.
      * do 2 right. left. exists na, ns, c, m. repeat split; auto.
    + intros H. injection H as <- <-.
      eexists ((_, RunEnd) :: na). split.
      * rewrite La. simpl. now rewrite <- app_assoc.
      * right. left. exists na, c, m. repeat split; auto.
  - intros H. injection H as <- <-.
    eexists [(_, RunError msg)]. split; [reflexivity|].
    left. exists msg. split; reflexivity.
Qed.

(** The same for the handler: its response and the runs it added. *)
Lemma upload_trace (f : File) (w : World) (s : Stream) (l : list Stream) :
  ffprobe (file_path f) (fs w) = ProbeOk (mkMetadata (Some (s :: l))) ->
  let result :=
    upload dirname path_join path_basename path_extname ffprobe run
      (Some f) w in
  let processedDir :=
    snd (getFilePaths dirname path_join path_basename path_extname
           (file_filename f)) in
  let new := drop (length (procs w)) (procs (snd result)) in
  let video :=
    video_command path_join (file_path f) processedDir (find_video (s :: l)) in
  let audio :=
    imap (audio_command path_join (file_path f) processedDir)
         (audio_streams (s :: l)) in
  let subs :=
    imap (subtitle_command path_join (file_path f) processedDir)
         (subtitle_streams (s :: l)) in
  let ended (e : FfmpegCommand * RunOutcome) := snd e = RunEnd in
  let failure msg := Failure (lit "Video processing failed") msg in
  (exists msg, new = [(video, RunError msg)] /\ fst result = failure msg)
  \/ (exists newA c msg,
         new = (video, RunEnd) :: newA
         /\ List.map fst newA = audio
         /\ In (c, RunError msg) newA
         /\ fst result = failure msg)
  \/ (exists newA newS c msg,
         new = (video, RunEnd) :: newA ++ newS
         /\ List.map fst newA = audio /\ Forall ended newA
         /\ List.map fst newS = subs
         /\ In (c, RunError msg) newS
         /\ fst result = failure msg)
  \/ (exists newA newS m,
         new = (video, RunEnd) :: newA ++ newS
         /\ List.map fst newA = audio /\ Forall ended newA
         /\ List.map fst newS = subs /\ Forall ended newS
         /\ fst result = Success m).
Proof.
  intros Hp result processedDir new video audio subs ended failure.
  unfold new, result, video, audio, subs, processedDir, failure.
  unfold upload, getFilePaths. cbn [snd].
  destruct (process path_join ffprobe run f _ _ w) as [r w1] eqn:E.
  destruct (process_trace f _ _ w w1 r s l Hp E) as [n [L H]].
  assert (Hd : forall w2, procs w2 = procs w1 ->
                 drop (length (procs w)) (procs w2) = n).
  { intros w2 ->. rewrite L. apply drop_app_length. }
  destruct H as [[msg [-> ->]]
                |[[nA [c [msg [-> [MA [Hin ->]]]]]]
                 |[[nA [nS [c [msg [-> [MA [OA [MS [Hin ->]]]]]]]]]
                  |[nA [nS [m [-> [MA [OA [MS [OS ->]]]]]]]]]]];
    cbn [fst snd]; rewrite ?(Hd _ (cleanupFiles_procs _ _)), ?(Hd _ eq_refl).
  - left. eauto.
  - right. left. exists nA, c, msg. auto.
  - do 2 right. left. exists nA, nS, c, msg. repeat split; auto.
  - do 3 right. exists nA, nS, m. repeat split; auto.
Qed.

End UploadMore.

(** When the prober fails, the call answers with the failure carrying the
    prober's message, and no ffmpeg run is started. *)
Theorem probe_error_starts_nothing
  (dirname : jsstring) (path_join : list jsstring -> jsstring)
  (path_basename : jsstring -> jsstring -> jsstring)
  (path_extname : jsstring -> jsstring)
  (ffprobe : jsstring -> Fs.state -> Batch.ProbeResult)
  (run : Batch.FfmpegCommand -> Fs.state -> Batch.RunOutcome * Fs.state)
  (f : Batch.File) (w : Batch.World) (msg : jsstring) :
  ffprobe (Batch.file_path f) (Batch.fs w) = Batch.ProbeError msg ->
  let result :=
    Batch.upload dirname path_join path_basename path_extname ffprobe run
      (Some f) w in
  fst result = Batch.Failure (lit "Video processing failed") msg
  /\ Batch.procs (snd result) = Batch.procs w.
Proof.
  intros Hp result.
  assert (E : result
              = (Batch.Failure (lit "Video processing failed") msg,
                 Batch.cleanupFiles (Batch.file_path f) w)).
  { unfold result, Batch.upload, Batch.getFilePaths, Batch.process.
    unfold Batch.bind at 1. unfold Batch.probe. now rewrite Hp. }
  rewrite E. split; [reflexivity|apply cleanupFiles_procs].
Qed.

Lemma probe_error_starts_nothing_witness :
  let result :=
    Batch.upload Demo.dirname Demo.path_join Demo.path_basename
      Demo.path_extname Demo2.ffprobe_error Demo.run_ok
      (Some Demo.upload_file) Demo2.world_uploaded in
  Demo2.ffprobe_error (Batch.file_path Demo.upload_file)
    (Batch.fs Demo2.world_uploaded)
  = Batch.ProbeError (lit "ffprobe exited with code 1")
  /\ fst result
     = Batch.Failure (lit "Video processing failed")
         (lit "ffprobe exited with code 1")
  /\ Batch.procs (snd result) = Batch.procs Demo2.world_uploaded.
Proof.
  split; [reflexivity|].
  exact (probe_error_starts_nothing Demo.dirname Demo.path_join
           Demo.path_basename Demo.path_extname Demo2.ffprobe_error
           Demo.run_ok Demo.upload_file Demo2.world_uploaded
           (lit "ffprobe exited with code 1") eq_refl).
Defined.

(** When the prober reports no stream list, or an empty one, the call
    answers with the failure [No streams found in the video file], and no
    ffmpeg run is started. *)
Theorem no_streams_starts_nothing
  (dirname : jsstring) (path_join : list jsstring -> jsstring)
  (path_basename : jsstring -> jsstring -> jsstring)
  (path_extname : jsstring -> jsstring)
  (ffprobe : jsstring -> Fs.state -> Batch.ProbeResult)
  (run : Batch.FfmpegCommand -> Fs.state -> Batch.RunOutcome * Fs.state)
  (f : Batch.File) (w : Batch.World) (metadata : Batch.Metadata) :
  ffprobe (Batch.file_path f) (Batch.fs w) = Batch.ProbeOk metadata ->
  Batch.streams metadata = None \/ Batch.streams metadata = Some [] ->
  let result :=
    Batch.upload dirname path_join path_basename path_extname ffprobe run
      (Some f) w in
  fst result
  = Batch.Failure (lit "Video processing failed")
      (lit "No streams found in the video file")
  /\ Batch.procs (snd result) = Batch.procs w.
Proof.
  intros Hp Hs result.
  assert (E : result
              = (Batch.Failure (lit "Video processing failed")
                   (lit "No streams found in the video file"),
                 Batch.cleanupFiles (Batch.file_path f) w)).
  { unfold result, Batch.upload, Batch.getFilePaths, Batch.process.
    unfold Batch.bind at 1. unfold Batch.probe. rewrite Hp.
    unfold Batch.bind at 1. now destruct Hs as [-> | ->]. }
  rewrite E. split; [reflexivity|apply cleanupFiles_procs].
Qed.

Lemma no_streams_starts_nothing_witness :
  let result :=
    Batch.upload Demo.dirname Demo.path_join Demo.path_basename
      Demo.path_extname Demo2.ffprobe_empty Demo.run_ok
      (Some Demo.upload_file) Demo2.world_uploaded in
  (Demo2.ffprobe_empty (Batch.file_path Demo.upload_file)
     (Batch.fs Demo2.world_uploaded)
   = Batch.ProbeOk (Batch.mkMetadata (Some []))
   /\ (Batch.streams (Batch.mkMetadata (Some [])) = None
       \/ Batch.streams (Batch.mkMetadata (Some [])) = Some []))
  /\ fst result
     = Batch.Failure (lit "Video processing failed")
         (lit "No streams found in the video file")
  /\ Batch.procs (snd result) = Batch.procs Demo2.world_uploaded.
Proof.
  split; [split; [reflexivity|right; reflexivity]|].
  exact (no_streams_starts_nothing Demo.dirname Demo.path_join
           Demo.path_basename Demo.path_extname Demo2.ffprobe_empty
           Demo.run_ok Demo.upload_file Demo2.world_uploaded
           (Batch.mkMetadata (Some [])) eq_refl (or_intror eq_refl)).
Defined.

(** The ffmpeg runs of a call, with how they ended, go one of four ways.
    The video run fails: it is the only run, and the call answers with the
    failure carrying its message.  The video run ends well and an audio run
    fails: the command of every audio stream was started, in order, no
    subtitle command was, and the call answers with the failure carrying
    the message of a failed audio run.  The video run and every audio run
    end well and a subtitle run fails: every audio and every subtitle
    command was started, and the call answers with the failure.  Every run
    ends well: every command was started and the call answers with a
    manifest. *)
Theorem upload_starts_runs_by_group
  (dirname : jsstring) (path_join : list jsstring -> jsstring)
  (path_basename : jsstring -> jsstring -> jsstring)
  (path_extname : jsstring -> jsstring)
  (ffprobe : jsstring -> Fs.state -> Batch.ProbeResult)
  (run : Batch.FfmpegCommand -> Fs.state -> Batch.RunOutcome * Fs.state)
  (f : Batch.File) (w : Batch.World) (s : Stream) (l : list Stream) :
  ffprobe (Batch.file_path f) (Batch.fs w)
  = Batch.ProbeOk (Batch.mkMetadata (Some (s :: l))) ->
  let result :=
    Batch.upload dirname path_join path_basename path_extname ffprobe run
      (Some f) w in
  let processedDir :=
    snd (Batch.getFilePaths dirname path_join path_basename path_extname
           (Batch.file_filename f)) in
  let new := drop (length (Batch.procs w)) (Batch.procs (snd result)) in
  let video :=
    Batch.video_command path_join (Batch.file_path f) processedDir
      (Batch.find_video (s :: l)) in
  let audio :=
    imap (Batch.audio_command path_join (Batch.file_path f) processedDir)
         (Batch.audio_streams (s :: l)) in
  let subs :=
    imap (Batch.subtitle_command path_join (Batch.file_path f) processedDir)
         (Batch.subtitle_streams (s :: l)) in
  let ended (e : Batch.FfmpegCommand * Batch.RunOutcome) :=
    snd e = Batch.RunEnd in
  let failure msg := Batch.Failure (lit "Video processing failed") msg in
  (exists msg,
      new = [(video, Batch.RunError msg)] /\ fst result = failure msg)
  \/ (exists newA c msg,
         new = (video, Batch.RunEnd) :: newA
         /\ List.map fst newA = audio
         /\ In (c, Batch.RunError msg) newA
         /\ fst result = failure msg)
  \/ (exists newA newS c msg,
         new = (video, Batch.RunEnd) :: newA ++ newS
         /\ List.map fst newA = audio /\ Forall ended newA
         /\ List.map fst newS = subs
         /\ In (c, Batch.RunError msg) newS
         /\ fst result = failure msg)
  \/ (exists newA newS m,
         new = (video, Batch.RunEnd) :: newA ++ newS
         /\ List.map fst newA = audio /\ Forall ended newA
         /\ List.map fst newS = subs /\ Forall ended newS
         /\ fst result = Batch.Success m).
Proof. intros Hp. now apply upload_trace. Qed.

Lemma upload_starts_runs_by_group_witness :
  let result :=
    Batch.upload Demo.dirname Demo.path_join Demo.path_basename
      Demo.path_extname Demo.ffprobe Demo.run_failing_on_2
      (Some Demo.upload_file) Demo.world0 in
  let processedDir :=
    snd (Batch.getFilePaths Demo.dirname Demo.path_join Demo.path_basename
           Demo.path_extname (Batch.file_filename Demo.upload_file)) in
  let new :=
    drop (length (Batch.procs Demo.world0)) (Batch.procs (snd result)) in
  let video :=
    Batch.video_command Demo.path_join (Batch.file_path Demo.upload_file)
      processedDir (Batch.find_video Demo.all_streams) in
  let audio :=
    imap (Batch.audio_command Demo.path_join
            (Batch.file_path Demo.upload_file) processedDir)
         (Batch.audio_streams Demo.all_streams) in
  let subs :=
    imap (Batch.subtitle_command Demo.path_join
            (Batch.file_path Demo.upload_file) processedDir)
         (Batch.subtitle_streams Demo.all_streams) in
  let ended (e : Batch.FfmpegCommand * Batch.RunOutcome) :=
    snd e = Batch.RunEnd in
  let failure msg := Batch.Failure (lit "Video processing failed") msg in
  (Demo.ffprobe (Batch.file_path Demo.upload_file) (Batch.fs Demo.world0)
   = Batch.ProbeOk (Batch.mkMetadata (Some Demo.all_streams))
   /\ List.map snd new
      = [Batch.RunEnd; Batch.RunEnd;
         Batch.RunError (lit "ffmpeg exited with code 1")])
  /\ ((exists msg,
          new = [(video, Batch.RunError msg)] /\ fst result = failure msg)
      \/ (exists newA c msg,
             new = (video, Batch.RunEnd) :: newA
             /\ List.map fst newA = audio
             /\ In (c, Batch.RunError msg) newA
             /\ fst result = failure msg)
      \/ (exists newA newS c msg,
             new = (video, Batch.RunEnd) :: newA ++ newS
             /\ List.map fst newA = audio /\ Forall ended newA
             /\ List.map fst newS = subs
             /\ In (c, Batch.RunError msg) newS
             /\ fst result = failure msg)
      \/ (exists newA newS m,
             new = (video, Batch.RunEnd) :: newA ++ newS
             /\ List.map fst newA = audio /\ Forall ended newA
             /\ List.map fst newS = subs /\ Forall ended newS
             /\ fst result = Batch.Success m)).
Proof.
  split; [split; [reflexivity|vm_compute; reflexivity]|].
  exact (upload_starts_runs_by_group Demo.dirname Demo.path_join
           Demo.path_basename Demo.path_extname Demo.ffprobe
           Demo.run_failing_on_2 Demo.upload_file Demo.world0
           Demo.video_stream [Demo.aac_stream; Demo.mp3_stream; Demo.sub_stream]
           eq_refl).
Defined.

Lemma upload_success_process
  (dirname : jsstring) (path_join : list jsstring -> jsstring)
  (path_basename : jsstring -> jsstring -> jsstring)
  (path_extname : jsstring -> jsstring)
  (ffprobe : jsstring -> Fs.state -> Batch.ProbeResult)
  (run : Batch.FfmpegCommand -> Fs.state -> Batch.RunOutcome * Fs.state)
  (f : Batch.File) (w : Batch.World) (m : Batch.Manifest) :
  fst (Batch.upload dirname path_join path_basename path_extname ffprobe run
         (Some f) w) = Batch.Success m ->
  exists w1,
    Batch.process path_join ffprobe run f
      (fst (Batch.getFilePaths dirname path_join path_basename path_extname
              (Batch.file_filename f)))
      (snd (Batch.getFilePaths dirname path_join path_basename path_extname
              (Batch.file_filename f))) w
    = (Batch.Done m, w1).
Proof.
  unfold Batch.upload, Batch.getFilePaths. cbn [fst snd].
  destruct (Batch.process path_join ffprobe run f _ _ w) as [[m'|msg] w1];
    cbn [fst]; intros H; [|discriminate H].
  injection H as ->. eauto.
Qed.

(** When the prober finds at least one stream and none of the runs the call
    starts fails, the call answers with a manifest: the video URL, one
    audio track per audio stream, one subtitle track per subtitle stream,
    and the original file name. *)
Theorem upload_succeeds_when_runs_end
  (dirname : jsstring) (path_join : list jsstring -> jsstring)
  (path_basename : jsstring -> jsstring -> jsstring)
  (path_extname : jsstring -> jsstring)
  (ffprobe : jsstring -> Fs.state -> Batch.ProbeResult)
  (run : Batch.FfmpegCommand -> Fs.state -> Batch.RunOutcome * Fs.state)
  (f : Batch.File) (w : Batch.World) (s : Stream) (l : list Stream) :
  ffprobe (Batch.file_path f) (Batch.fs w)
  = Batch.ProbeOk (Batch.mkMetadata (Some (s :: l))) ->
  Forall (fun e => snd e = Batch.RunEnd)
         (drop (length (Batch.procs w))
            (Batch.procs
               (snd (Batch.upload dirname path_join path_basename
                       path_extname ffprobe run (Some f) w)))) ->
  exists m,
    fst (Batch.upload dirname path_join path_basename path_extname ffprobe
           run (Some f) w) = Batch.Success m
    /\ Batch.videoUrl m
       = lit "/processed/"
         ++ fst (Batch.getFilePaths dirname path_join path_basename
                   path_extname (Batch.file_filename f))
         ++ lit "/video.mp4"
    /\ length (Batch.audioTracks m) = length (Batch.audio_streams (s :: l))
    /\ length (Batch.subtitleTracks m)
       = length (Batch.subtitle_streams (s :: l))
    /\ Batch.filename m = Batch.file_originalname f.
Proof.
  intros Hp Hall.
  assert (Hno : forall c msg,
             ~ In (c, Batch.RunError msg)
                  (drop (length (Batch.procs w))
                     (Batch.procs
                        (snd (Batch.upload dirname path_join path_basename
                                path_extname ffprobe run (Some f) w))))).
  { intros c msg Hin. rewrite List.Forall_forall in Hall.
    apply Hall in Hin. discriminate Hin. }
  destruct (upload_trace dirname path_join path_basename path_extname ffprobe
              run f w s l Hp)
    as [[msg [E _]]
       |[[nA [c [msg [E [_ [Hin _]]]]]]
        |[[nA [nS [c [msg [E [_ [_ [_ [Hin _]]]]]]]]]
         |[nA [nS [m [_ [_ [_ [_ [_ Hm]]]]]]]]]]].
  - exfalso. eapply Hno. rewrite E. left. reflexivity.
  - exfalso. apply (Hno c msg). rewrite E. now right.
  - exfalso. apply (Hno c msg). rewrite E. right.
    apply in_or_app. now right.
  - exists m. split; [exact Hm|].
    destruct (upload_success_process _ _ _ _ _ _ _ _ _ Hm) as [w1 E].
    destruct (process_tracks _ _ _ _ _ _ _ _ _ E)
      as [all [_ [Hp' [Ha [Hs [Hv Hf]]]]]].
    rewrite Hp in Hp'. injection Hp' as <-.
    rewrite Ha, Hs, !length_imap. auto.
Qed.

Lemma upload_succeeds_when_runs_end_witness :
  let result :=
    Batch.upload Demo.dirname Demo.path_join Demo.path_basename
      Demo.path_extname Demo.ffprobe Demo.run_ok (Some Demo.upload_file)
      Demo.world0 in
  (Demo.ffprobe (Batch.file_path Demo.upload_file) (Batch.fs Demo.world0)
   = Batch.ProbeOk (Batch.mkMetadata (Some Demo.all_streams))
   /\ Forall (fun e => snd e = Batch.RunEnd)
             (drop (length (Batch.procs Demo.world0))
                (Batch.procs (snd result))))
  /\ exists m,
       fst result = Batch.Success m
       /\ Batch.videoUrl m
          = lit "/processed/"
            ++ fst (Batch.getFilePaths Demo.dirname Demo.path_join
                      Demo.path_basename Demo.path_extname
                      (Batch.file_filename Demo.upload_file))
            ++ lit "/video.mp4"
       /\ length (Batch.audioTracks m)
          = length (Batch.audio_streams Demo.all_streams)
       /\ length (Batch.subtitleTracks m)
          = length (Batch.subtitle_streams Demo.all_streams)
       /\ Batch.filename m = Batch.file_originalname Demo.upload_file.
Proof.
  intros result.
  assert (Hall : Forall (fun e => snd e = Batch.RunEnd)
                        (drop (length (Batch.procs Demo.world0))
                           (Batch.procs (snd result)))).
  { vm_compute. repeat constructor. }
  split; [split; [reflexivity|exact Hall]|].
  exact (upload_succeeds_when_runs_end Demo.dirname Demo.path_join
           Demo.path_basename Demo.path_extname Demo.ffprobe Demo.run_ok
           Demo.upload_file Demo.world0 Demo.video_stream
           [Demo.aac_stream; Demo.mp3_stream; Demo.sub_stream] eq_refl Hall).
Defined.

(** ** The audio runs of an upload *)

Lemma lookup_map_Some {A B} (h : A -> B) (l : list A) (i : nat) (y : B) :
  List.map h l !! i = Some y -> exists x, l !! i = Some x /\ h x = y.
Proof.
  revert i. induction l as [|x l IH]; intros [|i]; simpl; try discriminate.
  - intros H. injection H as <-. eauto.
  - apply IH.
Qed.

(** The run of each audio stream, by its position [n] among the audio
    streams: whatever run the call logged right after the video run at
    offset [n] is that stream's audio command, and once the video run ended
    well that run is there. *)
Lemma upload_audio_runs
  (dirname : jsstring) (path_join : list jsstring -> jsstring)
  (path_basename : jsstring -> jsstring -> jsstring)
  (path_extname : jsstring -> jsstring)
  (ffprobe : jsstring -> Fs.state -> Batch.ProbeResult)
  (run : Batch.FfmpegCommand -> Fs.state -> Batch.RunOutcome * Fs.state)
  (f : Batch.File) (w : Batch.World) (s : Stream) (l : list Stream)
  (n : nat) (a : Stream) :
  ffprobe (Batch.file_path f) (Batch.fs w)
  = Batch.ProbeOk (Batch.mkMetadata (Some (s :: l))) ->
  Batch.audio_streams (s :: l) !! n = Some a ->
  let new :=
    drop (length (Batch.procs w))
      (Batch.procs
         (snd (Batch.upload dirname path_join path_basename path_extname
                 ffprobe run (Some f) w))) in
  let command :=
    Batch.audio_command path_join (Batch.file_path f)
      (snd (Batch.getFilePaths dirname path_join path_basename path_extname
              (Batch.file_filename f))) n a in
  (forall c o, new !! S n = Some (c, o) -> c = command)
  /\ ((exists v, new !! 0%nat = Some (v, Batch.RunEnd)) ->
      exists o, new !! S n = Some (command, o)).
Proof.
  intros Hp Ha new command.
  assert (Hrun : forall
               newA rest : list (Batch.FfmpegCommand * Batch.RunOutcome),
             List.map fst newA
             = imap (Batch.audio_command path_join (Batch.file_path f)
                       (snd (Batch.getFilePaths dirname path_join
                               path_basename path_extname
                               (Batch.file_filename f))))
                    (Batch.audio_streams (s :: l)) ->
             exists o, (newA ++ rest) !! n = Some (command, o)).
  { intros newA rest M.
    assert (Hl : List.map fst newA !! n = Some command).
    { rewrite M, list_lookup_imap, Ha. reflexivity. }
    apply lookup_map_Some in Hl as [[c o] [Hl Hc]]. simpl in Hc. subst c.
    exists o. now apply lookup_app_l_Some. }
  destruct (upload_trace dirname path_join path_basename path_extname ffprobe
              run f w s l Hp)
    as [[msg [E _]]
       |[[nA [c0 [msg [E [M _]]]]]
        |[[nA [nS [c0 [msg [E [M _]]]]]]
         |[nA [nS [m [E [M _]]]]]]]];
    fold new in E; rewrite E.
  - split; [intros c o H; discriminate H|].
    intros [v H]. discriminate H.
  - destruct (Hrun nA [] M) as [o Ho]. rewrite app_nil_r in Ho.
    split; [|intros _; exists o; exact Ho].
    intros c o' H. simpl in H. rewrite Ho in H. now injection H.
  - destruct (Hrun nA nS M) as [o Ho].
    split; [|intros _; exists o; exact Ho].
    intros c o' H. simpl in H. rewrite Ho in H. now injection H.
  - destruct (Hrun nA nS M) as [o Ho].
    split; [|intros _; exists o; exact Ho].
    intros c o' H. simpl in H. rewrite Ho in H. now injection H.
Qed.

(** C1, as amended. In the one-stream handler the command run for an audio
    stream selects the codec [copy] if the stream's codec name is [aac] and
    the encoder [aac] for any other codec name.  In the upload handler the
    run of every audio stream, which the call starts once the video run
    ended well, is a command that maps that stream and selects the encoder
    [aac], whatever the codec name. *)
Theorem audio_codec_choice
  (tmpdir : jsstring) (path_join : list jsstring -> jsstring)
  (exec : jsstring -> Fs.state -> Interactive.ExecOutcome * Fs.state)
  (now : N) (filePath : jsstring) (stream : Stream) (w : Interactive.World)
  (dirname : jsstring)
  (path_basename : jsstring -> jsstring -> jsstring)
  (path_extname : jsstring -> jsstring)
  (ffprobe : jsstring -> Fs.state -> Batch.ProbeResult)
  (run : Batch.FfmpegCommand -> Fs.state -> Batch.RunOutcome * Fs.state)
  (f : Batch.File) (bw : Batch.World) (s : Stream) (l : list Stream) :
  codec_type stream = lit "audio" ->
  ffprobe (Batch.file_path f) (Batch.fs bw)
  = Batch.ProbeOk (Batch.mkMetadata (Some (s :: l))) ->
  let outputPath :=
    path_join [tmpdir; Interactive.audio_name now (index stream)] in
  let command :=
    Interactive.audio_command_text filePath (index stream)
      (if streq (codec_name stream) (lit "aac") then lit "copy" else lit "aac")
      outputPath in
  let new :=
    drop (length (Batch.procs bw))
      (Batch.procs
         (snd (Batch.upload dirname path_join path_basename path_extname
                 ffprobe run (Some f) bw))) in
  (Interactive.build tmpdir path_join now filePath stream
   = Some (command, outputPath)
   /\ Interactive.spawned
        (snd (Interactive.extract_stream tmpdir path_join exec now filePath
                stream w))
      = Interactive.spawned w ++ [command])
  /\ forall (n : nat) (a : Stream),
       Batch.audio_streams (s :: l) !! n = Some a ->
       (forall c o,
           new !! S n = Some (c, o) ->
           Batch.cmd_audioCodec c = Some (lit "aac")
           /\ Batch.cmd_outputOptions c
              = [lit "-map 0:" ++ num_to_string (index a)])
       /\ ((exists v, new !! 0%nat = Some (v, Batch.RunEnd)) ->
           exists c o,
             new !! S n = Some (c, o)
             /\ Batch.cmd_audioCodec c = Some (lit "aac")
             /\ Batch.cmd_outputOptions c
                = [lit "-map 0:" ++ num_to_string (index a)]).
Proof.
  intros Ht Hp outputPath command new.
  pose proof (build_audio tmpdir path_join now filePath stream Ht) as Hb.
  split.
  - split; [exact Hb|].
    unfold Interactive.extract_stream. rewrite Hb.
    destruct (exec _ (Interactive.fs w)) as [[stderr|] fs1]; reflexivity.
  - intros n a Ha.
    destruct (upload_audio_runs dirname path_join path_basename path_extname
                ffprobe run f bw s l n a Hp Ha) as [H1 H2].
    split.
    + intros c o H. apply H1 in H. subst c. split; reflexivity.
    + intros Hv. destruct (H2 Hv) as [o Ho].
      eexists _, o. split; [exact Ho|]. split; reflexivity.
Qed.

Lemma audio_codec_choice_witness :
  let exec := Demo.exec_writing Demo.audio_path (lit "ADTS") in
  let command :=
    Interactive.audio_command_text (lit "/media/movie.mkv") 2 (lit "aac")
      (lit "/tmp/mx-player-1700000000000_audio_2.aac") in
  let new :=
    drop (length (Batch.procs Demo.world0))
      (Batch.procs
         (snd (Batch.upload Demo.dirname Demo.path_join Demo.path_basename
                 Demo.path_extname Demo.ffprobe Demo.run_ok
                 (Some Demo.upload_file) Demo.world0))) in
  (codec_type Demo.mp3_stream = lit "audio"
   /\ Demo.ffprobe (Batch.file_path Demo.upload_file) (Batch.fs Demo.world0)
      = Batch.ProbeOk (Batch.mkMetadata (Some Demo.all_streams)))
  /\ (Interactive.build Demo.tmpdir Demo.path_join Demo.now
        (lit "/media/movie.mkv") Demo.mp3_stream
      = Some (command, lit "/tmp/mx-player-1700000000000_audio_2.aac")
      /\ Interactive.spawned
           (snd (Interactive.extract_stream Demo.tmpdir Demo.path_join exec
                   Demo.now (lit "/media/movie.mkv") Demo.mp3_stream
                   Demo.iworld0))
         = Interactive.spawned Demo.iworld0 ++ [command])
  /\ forall (n : nat) (a : Stream),
       Batch.audio_streams Demo.all_streams !! n = Some a ->
       (forall c o,
           new !! S n = Some (c, o) ->
           Batch.cmd_audioCodec c = Some (lit "aac")
           /\ Batch.cmd_outputOptions c
              = [lit "-map 0:" ++ num_to_string (index a)])
       /\ ((exists v, new !! 0%nat = Some (v, Batch.RunEnd)) ->
           exists c o,
             new !! S n = Some (c, o)
             /\ Batch.cmd_audioCodec c = Some (lit "aac")
             /\ Batch.cmd_outputOptions c
                = [lit "-map 0:" ++ num_to_string (index a)]).
Proof.
  split; [split; reflexivity|].
  exact (audio_codec_choice Demo.tmpdir Demo.path_join
           (Demo.exec_writing Demo.audio_path (lit "ADTS")) Demo.now
           (lit "/media/movie.mkv") Demo.mp3_stream Demo.iworld0
           Demo.dirname Demo.path_basename Demo.path_extname Demo.ffprobe
           Demo.run_ok Demo.upload_file Demo.world0 Demo.video_stream
           [Demo.aac_stream; Demo.mp3_stream; Demo.sub_stream]
           eq_refl eq_refl).
Defined.

(** The audio runs of the demo upload: both are there, both select the
    encoder [aac], each maps its own stream. *)
Example upload_audio_runs_demo :
  List.map (fun e =>
              (Batch.cmd_audioCodec (fst e), Batch.cmd_outputOptions (fst e)))
    (take 2
       (drop 1
          (Batch.procs
             (snd (Batch.upload Demo.dirname Demo.path_join
                     Demo.path_basename Demo.path_extname Demo.ffprobe
                     Demo.run_ok (Some Demo.upload_file) Demo.world0)))))
  = [(Some (lit "aac"), [lit "-map 0:1"]);
     (Some (lit "aac"), [lit "-map 0:2"])].
Proof. vm_compute. reflexivity. Qed.

(** ** The URLs of a manifest *)

Lemma NoDup_imap_index {A B} (f : nat -> A -> B) (l : list A) :
  (forall i j x y, f i x = f j y -> i = j) -> NoDup (imap f l).
Proof.
  revert f. induction l as [|x l IH]; intros f Hf; simpl.
  - constructor.
  - apply NoDup_cons. split.
    + rewrite elem_of_lookup_imap. intros [j [y [E _]]].
      apply Hf in E. discriminate E.
    + apply IH. intros i j a b E. apply Hf in E. now injection E.
Qed.

Lemma audio_url_inj (b : jsstring) (i j : nat) :
  lit "/processed/" ++ b ++ lit "/audio_" ++ num_to_string (N.of_nat i)
  ++ lit ".aac"
  = lit "/processed/" ++ b ++ lit "/audio_" ++ num_to_string (N.of_nat j)
    ++ lit ".aac" ->
  i = j.
Proof.
  intros H. do 3 apply app_inv_head in H. apply app_inv_tail in H.
  apply num_to_string_inj in H. now apply Nat2N.inj.
Qed.

Lemma sub_url_inj (b : jsstring) (i j : nat) :
  lit "/processed/" ++ b ++ lit "/sub_" ++ num_to_string (N.of_nat i)
  ++ lit ".vtt"
  = lit "/processed/" ++ b ++ lit "/sub_" ++ num_to_string (N.of_nat j)
    ++ lit ".vtt" ->
  i = j.
Proof.
  intros H. do 3 apply app_inv_head in H. apply app_inv_tail in H.
  apply num_to_string_inj in H. now apply Nat2N.inj.
Qed.

Lemma audio_url_not_sub_url (b r1 r2 : jsstring) :
  lit "/processed/" ++ b ++ lit "/audio_" ++ r1
  <> lit "/processed/" ++ b ++ lit "/sub_" ++ r2.
Proof. intros H. do 2 apply app_inv_head in H. discriminate H. Qed.

Lemma video_url_not_audio_url (b r : jsstring) :
  lit "/processed/" ++ b ++ lit "/video.mp4"
  <> lit "/processed/" ++ b ++ lit "/audio_" ++ r.
Proof. intros H. do 2 apply app_inv_head in H. discriminate H. Qed.

Lemma video_url_not_sub_url (b r : jsstring) :
  lit "/processed/" ++ b ++ lit "/video.mp4"
  <> lit "/processed/" ++ b ++ lit "/sub_" ++ r.
Proof. intros H. do 2 apply app_inv_head in H. discriminate H. Qed.

(** In a manifest the video URL and the URLs of all audio and subtitle
    tracks are pairwise distinct. *)
Theorem manifest_urls_distinct
  (dirname : jsstring) (path_join : list jsstring -> jsstring)
  (path_basename : jsstring -> jsstring -> jsstring)
  (path_extname : jsstring -> jsstring)
  (ffprobe : jsstring -> Fs.state -> Batch.ProbeResult)
  (run : Batch.FfmpegCommand -> Fs.state -> Batch.RunOutcome * Fs.state)
  (f : Batch.File) (w w' : Batch.World) (m : Batch.Manifest) :
  Batch.upload dirname path_join path_basename path_extname ffprobe run
    (Some f) w = (Batch.Success m, w') ->
  NoDup (Batch.videoUrl m
         :: List.map Batch.url (Batch.audioTracks m)
         ++ List.map Batch.url (Batch.subtitleTracks m)).
Proof.
  unfold Batch.upload, Batch.getFilePaths.
  destruct (Batch.process path_join ffprobe run f _ _ w)
    as [[m'|msg] w1] eqn:E; [|discriminate].
  intros H. injection H as <- _.
  destruct (process_tracks _ _ _ _ _ _ _ _ _ E)
    as [all [_ [_ [Ha [Hs [Hv _]]]]]].
  rewrite Ha, Hs, Hv, !map_imap. cbn [Batch.url].
  apply NoDup_cons. split; [|apply NoDup_app; split; [|split]].
  - rewrite elem_of_app, !elem_of_lookup_imap.
    intros [[i [y [H _]]]|[i [y [H _]]]].
    + now apply video_url_not_audio_url in H.
    + now apply video_url_not_sub_url in H.
  - apply NoDup_imap_index. intros i j _ _. apply audio_url_inj.
  - intros x. rewrite !elem_of_lookup_imap.
    intros [i [y [-> _]]] [j [z [H _]]].
    now apply audio_url_not_sub_url in H.
  - apply NoDup_imap_index. intros i j _ _. apply sub_url_inj.
Qed.

Lemma manifest_urls_distinct_witness :
  let result :=
    Batch.upload Demo.dirname Demo.path_join Demo.path_basename
      Demo.path_extname Demo.ffprobe Demo.run_ok (Some Demo.upload_file)
      Demo.world0 in
  let m :=
    Batch.mkManifest (lit "/processed/1700000000000-movie/video.mp4")
      [Batch.mkTrack (lit "/processed/1700000000000-movie/audio_0.aac")
         (str (lit "Commentary"));
       Batch.mkTrack (lit "/processed/1700000000000-movie/audio_1.aac")
         (str (lit "Audio 2"))]
      [Batch.mkTrack (lit "/processed/1700000000000-movie/sub_0.vtt")
         (str (lit "eng"))]
      (lit "movie.mkv") in
  result = (Batch.Success m, snd result)
  /\ NoDup (Batch.videoUrl m
            :: List.map Batch.url (Batch.audioTracks m)
            ++ List.map Batch.url (Batch.subtitleTracks m)).
Proof.
  intros result m.
  assert (Hr : result = (Batch.Success m, snd result)).
  { vm_compute. reflexivity. }
  split; [exact Hr|].
  exact (manifest_urls_distinct Demo.dirname Demo.path_join Demo.path_basename
           Demo.path_extname Demo.ffprobe Demo.run_ok Demo.upload_file
           Demo.world0 (snd result) m Hr).
Defined.

Lemma video_command_output (path_join : list jsstring -> jsstring)
  (inputFile processedDir : jsstring) (v : option Stream) :
  Batch.cmd_output (Batch.video_command path_join inputFile processedDir v)
  = Some (path_join [processedDir; lit "video.mp4"]).
Proof.
  unfold Batch.video_command. destruct v as [v|]; [|reflexivity].
  destruct (streq (codec_name v) (lit "h264")); reflexivity.
Qed.

(** Every URL of a manifest names the file its run was told to write: the
    URL is [/processed/], the base name, a slash and a file name, and the
    output of the matching run, in the order video, audio tracks, subtitle
    tracks, is [path.join] of the processed directory and that same file
    name. *)
Theorem manifest_urls_name_outputs
  (dirname : jsstring) (path_join : list jsstring -> jsstring)
  (path_basename : jsstring -> jsstring -> jsstring)
  (path_extname : jsstring -> jsstring)
  (ffprobe : jsstring -> Fs.state -> Batch.ProbeResult)
  (run : Batch.FfmpegCommand -> Fs.state -> Batch.RunOutcome * Fs.state)
  (f : Batch.File) (w w' : Batch.World) (m : Batch.Manifest) :
  Batch.upload dirname path_join path_basename path_extname ffprobe run
    (Some f) w = (Batch.Success m, w') ->
  let baseName :=
    fst (Batch.getFilePaths dirname path_join path_basename path_extname
           (Batch.file_filename f)) in
  let processedDir :=
    snd (Batch.getFilePaths dirname path_join path_basename path_extname
           (Batch.file_filename f)) in
  let url_of name := lit "/processed/" ++ baseName ++ lit "/" ++ name in
  let output_of name := Some (path_join [processedDir; name]) in
  exists audio_names sub_names,
    Batch.videoUrl m = url_of (lit "video.mp4")
    /\ List.map Batch.url (Batch.audioTracks m) = List.map url_of audio_names
    /\ List.map Batch.url (Batch.subtitleTracks m)
       = List.map url_of sub_names
    /\ List.map (fun e => Batch.cmd_output (fst e))
         (drop (length (Batch.procs w)) (Batch.procs w'))
       = List.map output_of (lit "video.mp4" :: audio_names ++ sub_names).
Proof.
  unfold Batch.upload, Batch.getFilePaths. cbn [fst snd].
  destruct (Batch.process path_join ffprobe run f _ _ w)
    as [[m'|msg] w1] eqn:E; [|discriminate].
  intros H. injection H as <- <-. cbv zeta.
  destruct (process_tracks _ _ _ _ _ _ _ _ _ E)
    as [all [Hne [Hp [Ha [Hs [Hv _]]]]]].
  destruct all as [|s l]; [congruence|].
  destruct (process_started _ _ _ _ _ _ _ _ _ _ _ Hp E) as [new [L H]].
  destruct H as [[[msg Hm] _]|H]; [discriminate Hm|].
  exists (imap (fun i (_ : Stream) =>
                  lit "audio_" ++ num_to_string (N.of_nat i) ++ lit ".aac")
               (Batch.audio_streams (s :: l))),
         (imap (fun i (_ : Stream) =>
                  lit "sub_" ++ num_to_string (N.of_nat i) ++ lit ".vtt")
               (Batch.subtitle_streams (s :: l))).
  split; [exact Hv|].
  rewrite Ha, Hs, !map_imap.
  split; [now apply imap_ext|]. split; [now apply imap_ext|].
  rewrite L, drop_app_length.
  rewrite <- (map_map fst Batch.cmd_output), H.
  cbn [List.map]. rewrite video_command_output.
  rewrite !List.map_app, !map_imap. reflexivity.
Qed.

Lemma manifest_urls_name_outputs_witness :
  let result :=
    Batch.upload Demo.dirname Demo.path_join Demo.path_basename
      Demo.path_extname Demo.ffprobe Demo.run_ok (Some Demo.upload_file)
      Demo.world0 in
  let m :=
    Batch.mkManifest (lit "/processed/1700000000000-movie/video.mp4")
      [Batch.mkTrack (lit "/processed/1700000000000-movie/audio_0.aac")
         (str (lit "Commentary"));
       Batch.mkTrack (lit "/processed/1700000000000-movie/audio_1.aac")
         (str (lit "Audio 2"))]
      [Batch.mkTrack (lit "/processed/1700000000000-movie/sub_0.vtt")
         (str (lit "eng"))]
      (lit "movie.mkv") in
  let baseName :=
    fst (Batch.getFilePaths Demo.dirname Demo.path_join Demo.path_basename
           Demo.path_extname (Batch.file_filename Demo.upload_file)) in
  let processedDir :=
    snd (Batch.getFilePaths Demo.dirname Demo.path_join Demo.path_basename
           Demo.path_extname (Batch.file_filename Demo.upload_file)) in
  let url_of name := lit "/processed/" ++ baseName ++ lit "/" ++ name in
  let output_of name := Some (Demo.path_join [processedDir; name]) in
  result = (Batch.Success m, snd result)
  /\ exists audio_names sub_names,
       Batch.videoUrl m = url_of (lit "video.mp4")
       /\ List.map Batch.url (Batch.audioTracks m)
          = List.map url_of audio_names
       /\ List.map Batch.url (Batch.subtitleTracks m)
          = List.map url_of sub_names
       /\ List.map (fun e => Batch.cmd_output (fst e))
            (drop (length (Batch.procs Demo.world0))
               (Batch.procs (snd result)))
          = List.map output_of (lit "video.mp4" :: audio_names ++ sub_names).
Proof.
  intros result m baseName processedDir url_of output_of.
  assert (Hr : result = (Batch.Success m, snd result)).
  { vm_compute. reflexivity. }
  split; [exact Hr|].
  exact (manifest_urls_name_outputs Demo.dirname Demo.path_join
           Demo.path_basename Demo.path_extname Demo.ffprobe Demo.run_ok
           Demo.upload_file Demo.world0 (snd result) m Hr).
Defined.

(** Every label of a manifest is a non-empty string: a tag is used only
    when it is one, and the positional fallback always is. *)
Theorem manifest_labels_nonempty
  (dirname : jsstring) (path_join : list jsstring -> jsstring)
  (path_basename : jsstring -> jsstring -> jsstring)
  (path_extname : jsstring -> jsstring)
  (ffprobe : jsstring -> Fs.state -> Batch.ProbeResult)
  (run : Batch.FfmpegCommand -> Fs.state -> Batch.RunOutcome * Fs.state)
  (f : Batch.File) (w w' : Batch.World) (m : Batch.Manifest) :
  Batch.upload dirname path_join path_basename path_extname ffprobe run
    (Some f) w = (Batch.Success m, w') ->
  Forall (fun t => exists c s, Batch.label t = str (c :: s))
         (Batch.audioTracks m ++ Batch.subtitleTracks m).
Proof.
  unfold Batch.upload, Batch.getFilePaths.
  destruct (Batch.process path_join ffprobe run f _ _ w)
    as [[m'|msg] w1] eqn:E; [|discriminate].
  intros H. injection H as <- _.
  destruct (process_tracks _ _ _ _ _ _ _ _ _ E)
    as [all [_ [_ [Ha [Hs _]]]]].
  rewrite Ha, Hs. apply Forall_app. split; apply Forall_imap_all;
    intros i stream; cbn [Batch.label];
    unfold Batch.audio_label, Batch.subtitle_label, logical_or;
    destruct (tags_title stream) as [|[|c t]]; simpl; eauto;
    destruct (tags_language stream) as [|[|d t]]; simpl; eauto.
Qed.

Lemma manifest_labels_nonempty_witness :
  let result :=
    Batch.upload Demo.dirname Demo.path_join Demo.path_basename
      Demo.path_extname Demo.ffprobe Demo.run_ok (Some Demo.upload_file)
      Demo.world0 in
  let m :=
    Batch.mkManifest (lit "/processed/1700000000000-movie/video.mp4")
      [Batch.mkTrack (lit "/processed/1700000000000-movie/audio_0.aac")
         (str (lit "Commentary"));
       Batch.mkTrack (lit "/processed/1700000000000-movie/audio_1.aac")
         (str (lit "Audio 2"))]
      [Batch.mkTrack (lit "/processed/1700000000000-movie/sub_0.vtt")
         (str (lit "eng"))]
      (lit "movie.mkv") in
  result = (Batch.Success m, snd result)
  /\ Forall (fun t => exists c s, Batch.label t = str (c :: s))
            (Batch.audioTracks m ++ Batch.subtitleTracks m).
Proof.
  intros result m.
  assert (Hr : result = (Batch.Success m, snd result)).
  { vm_compute. reflexivity. }
  split; [exact Hr|].
  exact (manifest_labels_nonempty Demo.dirname Demo.path_join
           Demo.path_basename Demo.path_extname Demo.ffprobe Demo.run_ok
           Demo.upload_file Demo.world0 (snd result) m Hr).
Defined.

(** ** The clean-up of a file, repeated *)

Lemma clean_subtitle_file_unfold (p : jsstring) (s : Fs.state) :
  Interactive.clean_subtitle_file p s
  = match Fs.files s !! p with
    | Some content =>
        if decide (p ∈ Fs.readonly s) then s
        else Fs.mkState (<[p := cleanedContent content]> (Fs.files s))
                        (Fs.readonly s)
    | None => s
    end.
Proof.
  unfold Interactive.clean_subtitle_file, Fs.readFileSync, Fs.writeFileSync.
  destruct (Fs.files s !! p); [|reflexivity].
  now destruct (decide (p ∈ Fs.readonly s)).
Qed.

Lemma cleanedContent_twice (content : jsstring) :
  cleanedContent (cleanedContent content) = cleanedContent content.
Proof.
  unfold cleanedContent at 1. rewrite split_cleanedContent.
  unfold cleanedContent. f_equal.
  rewrite map_map. apply map_ext. intros line. apply clean_line_idem.
Qed.

(** Cleaning a subtitle file a second time leaves the file system as the
    first clean-up left it, also when the file cannot be read or written. *)
Theorem clean_subtitle_file_idempotent (p : jsstring) (s : Fs.state) :
  Interactive.clean_subtitle_file p (Interactive.clean_subtitle_file p s)
  = Interactive.clean_subtitle_file p s.
Proof.
  rewrite (clean_subtitle_file_unfold p s).
  destruct (Fs.files s !! p) as [content|] eqn:Hr.
  - destruct (decide (p ∈ Fs.readonly s)) as [Hro|Hro].
    + rewrite clean_subtitle_file_unfold, Hr.
      now destruct (decide (p ∈ Fs.readonly s)).
    + rewrite clean_subtitle_file_unfold. simpl.
      rewrite lookup_insert_eq.
      destruct (decide (p ∈ Fs.readonly s)); [contradiction|].
      now rewrite insert_insert_eq, cleanedContent_twice.
  - now rewrite clean_subtitle_file_unfold, Hr.
Qed.
